(** * research-chain: the entity store, its handlers and the points engine

    A shallow embedding of the canister of [dfinity_js_backend/src/index.ts]
    and of the reputation variant that accompanies it, followed by the
    properties of the specification that were checked against them.

    Conventions of the embedding.
    - [text] is a JavaScript string.  Its code units are taken from the
      Latin-1 range, so that a code unit is one of Rocq's 8-bit characters.
    - [nat64] values are JavaScript bigints inside a handler: they do not
      wrap around, and they are numbers of [N] here.  The numbers of a
      payload are below [2^64] when they reach a handler; the one number a
      handler of [index.ts] computes and stores, [current_funding], is checked
      against that bound where the record is written to its map.  The points
      of the reputation variant are sums of at most 200 per call and are not
      checked against it.
    - A [StableBTreeMap] is a finite map.  What [get] answers with differs
      between the two copies of the canister in [index.ts], and the handlers
      read it in two ways: see [Core.dot_Some].
    - [uuidv4()], [ic.caller()] and the clock are inputs of a call: they are
      the fields of an [Env]. *)

From stdpp Require Import gmap strings list fin_maps.
From Stdlib Require Import NArith Ascii String.

Local Open Scope N_scope.

Abbreviation text := string.
Abbreviation nat64 := N.
Abbreviation Principal := string.

(** ** Strings as the handlers use them *)

Module Text.

Definition code (c : ascii) : N := N_of_ascii c.

(** The class [\s] of a regular expression, which is also what [trim]
    removes: TAB, LF, VT, FF, CR, SPACE and NBSP. *)
Definition is_space (c : ascii) : bool :=
  ((9 <=? code c) && (code c <=? 13)) || (code c =? 32) || (code c =? 160).

(** The class [[0-9]]; [\D] is its complement. *)
Definition is_digit (c : ascii) : bool :=
  (48 <=? code c) && (code c <=? 57).

Definition is_upper (c : ascii) : bool :=
  ((65 <=? code c) && (code c <=? 90))
  || ((192 <=? code c) && (code c <=? 222) && negb (code c =? 215)).

Definition lower (c : ascii) : ascii :=
  if is_upper c then ascii_of_N (code c + 32) else c.

Fixpoint map (f : ascii -> ascii) (s : text) : text :=
  match s with
  | EmptyString => EmptyString
  | String c s' => String (f c) (map f s')
  end.

Fixpoint filter (f : ascii -> bool) (s : text) : text :=
  match s with
  | EmptyString => EmptyString
  | String c s' => if f c then String c (filter f s') else filter f s'
  end.

Fixpoint all (f : ascii -> bool) (s : text) : bool :=
  match s with
  | EmptyString => true
  | String c s' => f c && all f s'
  end.

Definition length (s : text) : N := N.of_nat (String.length s).

(** [!s] for a string [s]: only the empty string is falsy. *)
Definition falsy (s : text) : bool :=
  match s with
  | EmptyString => true
  | String _ _ => false
  end.

Fixpoint trimStart (s : text) : text :=
  match s with
  | EmptyString => EmptyString
  | String c s' => if is_space c then trimStart s' else s
  end.

(** Trailing white space goes: a space is dropped when nothing is left
    after it. *)
Fixpoint trimEnd (s : text) : text :=
  match s with
  | EmptyString => EmptyString
  | String c s' =>
      match trimEnd s' with
      | EmptyString => if is_space c then EmptyString else String c EmptyString
      | String _ _ as rest => String c rest
      end
  end.

Definition trim (s : text) : text := trimEnd (trimStart s).

Definition toLowerCase (s : text) : text := map lower s.

(** [s.replace(/\D/g, "")] *)
Definition strip_non_digits (s : text) : text := filter is_digit s.

(** [/^[0-9]{10,15}$/.test(s)] *)
Definition phoneRegex_test (s : text) : bool :=
  all is_digit s && (10 <=? length s) && (length s <=? 15).

(** What [uuidv4()] returns: 36 code units, hexadecimal digits in five
    groups of 8, 4, 4, 4 and 12 separated by dashes, the third group
    starting with 4 and the fourth with 8, 9, a or b. *)
Definition is_hex (c : ascii) : bool :=
  is_digit c || ((97 <=? code c) && (code c <=? 102)).

Definition uuid_unit (i : nat) (c : ascii) : bool :=
  if bool_decide (i ∈ [8; 13; 18; 23]%nat) then Ascii.eqb c "-"
  else if bool_decide (i = 14%nat) then Ascii.eqb c "4"
  else if bool_decide (i = 19%nat) then
    Ascii.eqb c "8" || Ascii.eqb c "9" || Ascii.eqb c "a" || Ascii.eqb c "b"
  else is_hex c.

Definition is_uuid (s : text) : bool :=
  (String.length s =? 36)%nat
  && forallb (fun i => match String.get i s with
                       | Some c => uuid_unit i c
                       | None => false
                       end) (seq 0 36).

(** The class [[^\s@]]. *)
Definition not_space_at (c : ascii) : bool :=
  negb (is_space c) && negb (Ascii.eqb c "@").

Definition slice (i j : nat) (s : text) : text :=
  String.substring i (j - i) s.

(** [/^[^\s@]+@[^\s@]+\.[^\s@]+$/.test(s)]: some code unit [i] is the
    [@] and some later code unit [j] is the dot, the three stretches
    around them are not empty and stay inside the class [[^\s@]]. *)
Definition emailRegex_test (s : text) : bool :=
  let n := String.length s in
  existsb (fun i =>
    existsb (fun j =>
      match String.get i s, String.get j s with
      | Some a, Some d =>
          Ascii.eqb a "@" && Ascii.eqb d "."
          && (1 <=? i)%nat && (i + 2 <=? j)%nat && (j + 2 <=? n)%nat
          && all not_space_at (slice 0 i s)
          && all not_space_at (slice (i + 1) j s)
          && all not_space_at (slice (j + 1) n s)
      | _, _ => false
      end) (seq 0 n)) (seq 0 n).

End Text.

(** ** Records of the candid interface *)

Module Researcher.
Record t := mk {
  id : text;
  name : text;
  address : text;
  email : text;
  phone : text;
  owner : Principal;
  reputation_score : nat64;
  total_points : nat64;
  badges : list text;
  contributions : list text;
  achievements : list text
}.
End Researcher.

Module ResearchProposal.
Record t := mk {
  id : text;
  researcherId : text;
  title : text;
  description : text;
  methodology : text;
  milestones : list text;
  funding_target : nat64;
  current_funding : nat64;
  stage : text;
  reviews : list text;
  timeline : text
}.

Definition push_review (p : t) (r : text) : t :=
  mk (id p) (researcherId p) (title p) (description p) (methodology p)
     (milestones p) (funding_target p) (current_funding p) (stage p)
     (reviews p ++ [r]) (timeline p).

Definition push_milestone (p : t) (m : text) : t :=
  mk (id p) (researcherId p) (title p) (description p) (methodology p)
     (milestones p ++ [m]) (funding_target p) (current_funding p) (stage p)
     (reviews p) (timeline p).

Definition set_current_funding (p : t) (n : nat64) : t :=
  mk (id p) (researcherId p) (title p) (description p) (methodology p)
     (milestones p) (funding_target p) n (stage p)
     (reviews p) (timeline p).

Definition set_stage (p : t) (s : text) : t :=
  mk (id p) (researcherId p) (title p) (description p) (methodology p)
     (milestones p) (funding_target p) (current_funding p) s
     (reviews p) (timeline p).
End ResearchProposal.

Module Milestone.
Record t := mk {
  id : text;
  description : text;
  required_funding : nat64;
  deadline : text;
  status : text;
  proofs : list text
}.

Definition set_status (m : t) (s : text) : t :=
  mk (id m) (description m) (required_funding m) (deadline m) s (proofs m).

Definition push_proof (m : t) (p : text) : t :=
  mk (id m) (description m) (required_funding m) (deadline m) (status m)
     (proofs m ++ [p]).
End Milestone.

Module Review.
Record t := mk {
  id : text;
  reviewer : Principal;
  score : nat64;
  comments : text;
  stake_amount : nat64;
  verified : bool
}.
End Review.

Module ProofOfReproduction.
Record t := mk {
  id : text;
  methodology_hash : text;
  results_hash : text;
  status : text
}.
End ProofOfReproduction.

Inductive Message :=
| Success (m : text)
| Error (m : text)
| NotFound (m : text)
| InvalidPayload (m : text).

(** What a call comes to.  [Ok] and [Err] are the two cases of the [Result]
    a handler returns.  [Trap] is a call that gives no answer: an exception
    leaves the handler uncaught, or the value the handler returns cannot be
    encoded as the type the method declares.  A call that traps leaves the
    state as it was before the call. *)
Inductive Result (A : Type) :=
| Ok (a : A)
| Err (m : Message)
| Trap.

Arguments Ok {A} a.
Arguments Err {A} m.
Arguments Trap {A}.

Definition is_Ok {A} (r : Result A) : bool :=
  match r with Ok _ => true | _ => false end.

(** What a call reads from its surroundings. *)
Record Env := mkEnv {
  caller : Principal;   (* ic.caller() *)
  uuid : text;          (* the value uuidv4() returns in this call *)
  now : text            (* the creation stamp put in [timeline] *)
}.

(** ** The canister of [index.ts]

    The file holds the canister twice.  The first copy passes every identifier
    it receives through [idPayloadValid] and wraps each handler in
    [try]/[catch]; the second copy does neither.  The copies also differ in
    the map they are written against: [get] answers with the stored record or
    [null] in the first copy, which tests it with [!opt], and with an [Opt] in
    the second, which tests it with ["None" in opt].  Both copies then read
    the record as [opt.Some].  Apart from that and from the format of the
    creation stamp the copies are the same line for line, so the handlers
    below take the copy as a parameter: [Guarded] is the first, guarded
    copy and [Plain] the second, plain one. *)

Module Core.

Inductive Variant :=
| Guarded   (* the first copy, with idPayloadValid and try/catch *)
| Plain.    (* the second copy, without them *)

Record State := mkState {
  researchers : gmap text Researcher.t;
  proposals : gmap text ResearchProposal.t;
  milestones : gmap text Milestone.t;
  reviews : gmap text Review.t;
  proofs : gmap text ProofOfReproduction.t
}.

(** The five maps of a canister that has just been installed. *)
Definition empty : State := mkState ∅ ∅ ∅ ∅ ∅.

Definition set_researchers (st : State) m : State :=
  mkState m (proposals st) (milestones st) (reviews st) (proofs st).
Definition set_proposals (st : State) m : State :=
  mkState (researchers st) m (milestones st) (reviews st) (proofs st).
Definition set_milestones (st : State) m : State :=
  mkState (researchers st) (proposals st) m (reviews st) (proofs st).
Definition set_reviews (st : State) m : State :=
  mkState (researchers st) (proposals st) (milestones st) m (proofs st).
Definition set_proofs (st : State) m : State :=
  mkState (researchers st) (proposals st) (milestones st) (reviews st) m.

(** [map.values()] *)
Definition values {V} (m : gmap text V) : list V := (map_to_list m).*2.

(** What a handler can throw: the result value of the [throw] in
    [idPayloadValid], which is not an [Error] object; the [TypeError] of a
    property read on [undefined]; and the error of a map that is asked to
    store a number outside [nat64]. *)
Inductive Thrown :=
| Throw (m : Message)
| TypeError (property : text)
| OutOfRange (n : N).

(** [error.message] in a [catch].  The thrown result value has no such
    property, and the template string prints [undefined].  The two other
    texts are worded by the engine and by the map; the properties below use
    only the kind of the answer they end up in. *)
Definition message (e : Thrown) : text :=
  match e with
  | Throw _ => "undefined"
  | TypeError property =>
      "cannot read property '" +:+ property +:+ "' of undefined"
  | OutOfRange _ => "value out of range for nat64"
  end.

(** [typeof id !== "string"] is false for every [text]; [trim] of the empty
    string is empty. *)
Definition idPayloadValid (id : text) : option Thrown :=
  if Text.falsy id || String.eqb (Text.trim id) EmptyString
  then Some (Throw (InvalidPayload "Please provide a valid ID as text."))
  else None.

(** [opt.Some], where [opt] is what [get] answered for a stored record [x].
    In the second copy [opt] is [{ Some: x }] and the property is the record.
    In the first copy [opt] is the record itself, which has no property
    [Some]: the value read is [undefined], here [None]. *)
Definition dot_Some {A} (v : Variant) (x : A) : option A :=
  match v with
  | Guarded => None
  | Plain => Some x
  end.

(** [Ok(x)] as the answer of a call, where [x] may be [undefined]: no record
    type encodes [undefined], and the call traps. *)
Definition Ok_of {A} (x : option A) : Result A :=
  match x with
  | Some a => Ok a
  | None => Trap
  end.

(** A number can be stored in a [nat64] field. *)
Definition nat64_ok (n : N) : bool := n <? 2 ^ 64.

(** How the body of a handler ends: with [return], or with an exception; in
    either case in the state its [insert]s have made so far. *)
Inductive Completion (A : Type) :=
| Return (r : Result A)
| Raise (e : Thrown).

Arguments Return {A} r.
Arguments Raise {A} e.

(** The end of a call that began in [st].  The first copy catches what its
    body throws and answers [Err({Error: ...})], keeping what was inserted
    before the throw; in the second copy the exception is not caught and the
    call traps. *)
Definition finish {A} (v : Variant) (st : State)
    (c : Completion A * State) : Result A * State :=
  match c with
  | (Return Trap, _) => (Trap, st)
  | (Return r, st') => (r, st')
  | (Raise error, st') =>
      match v with
      | Guarded => (Err (Error ("Error occured " +:+ message error)), st')
      | Plain => (Trap, st)
      end
  end.

(** [try { idPayloadValid(id); body } catch (error) { return Err(...) }] in
    the first copy, the bare [body] in the second. *)
Definition try_id {A} (v : Variant) (id : text)
    (body : State -> Completion A * State) (st : State) : Result A * State :=
  finish v st
    match v with
    | Plain => body st
    | Guarded =>
        match idPayloadValid id with
        | Some error => (Raise error, st)
        | None => body st
        end
    end.

Definition createResearcher (env : Env) (name address email phone : text)
    (st : State) : Result Researcher.t * State :=
  if Text.falsy name || (Text.length (Text.trim name) <? 2) then
    (Err (InvalidPayload "Name must be at least 2 characters long."), st)
  else if Text.falsy address || (Text.length (Text.trim address) <? 5) then
    (Err (InvalidPayload "Address must be at least 5 characters long."), st)
  else if Text.falsy email || negb (Text.emailRegex_test email) then
    (Err (InvalidPayload "Invalid email format."), st)
  else if Text.falsy phone || negb (Text.phoneRegex_test phone) then
    (Err (InvalidPayload "Phone number must be 10-15 digits."), st)
  else
    let existingResearchers := values (researchers st) in
    let duplicateResearcher :=
      List.find (fun r => String.eqb (Researcher.email r) email
                          || String.eqb (Researcher.phone r) phone)
                existingResearchers in
    match duplicateResearcher with
    | Some _ =>
        (Err (InvalidPayload
                "Researcher with this email or phone already exists."), st)
    | None =>
        let id := uuid env in
        let researcher :=
          Researcher.mk id (Text.trim name) (Text.trim address)
            (Text.toLowerCase (Text.trim email))
            (Text.strip_non_digits phone)
            (caller env) 0 0 [] [] [] in
        (Ok researcher,
         set_researchers st (<[id := researcher]> (researchers st)))
    end.

Definition getResearcherById (v : Variant) (researcherId : text)
    : State -> Result Researcher.t * State :=
  try_id v researcherId (fun st =>
    match researchers st !! researcherId with
    | None =>
        (Return (Err (NotFound ("Researcher with id=" +:+ researcherId
                                +:+ " not found."))), st)
    | Some researcherOpt => (Return (Ok_of (dot_Some v researcherOpt)), st)
    end).

Definition getAllResearchers (st : State)
    : Result (list Researcher.t) * State :=
  let allResearchers := values (researchers st) in
  match allResearchers with
  | [] => (Err (NotFound "No researchers found."), st)
  | _ => (Ok allResearchers, st)
  end.

(** [researcher.owner.toText() === ic.caller().toText]: the right-hand side
    is the method itself, not its result, and a string is never strictly
    equal to a function. *)
Definition owner_is_caller (env : Env) (r : Researcher.t) : bool := false.

Definition getResearcherByOwner (env : Env) (st : State)
    : Result Researcher.t * State :=
  match List.filter (owner_is_caller env) (values (researchers st)) with
  | [] =>
      (Err (NotFound ("Researcher with owner=" +:+ caller env
                      +:+ " not found.")), st)
  | r :: _ => (Ok r, st)
  end.

Definition createProposal (v : Variant) (env : Env)
    (researcherId title description methodology : text)
    (funding_target : nat64)
    : State -> Result ResearchProposal.t * State :=
  try_id v researcherId (fun st =>
    if Text.falsy title || Text.falsy description || Text.falsy methodology
       || (funding_target <=? 0) then
      (Return (Err (InvalidPayload
                 "All fields are required, and funding target must be > 0.")),
       st)
    else
      match researchers st !! researcherId with
      | None =>
          (Return (Err (NotFound ("Researcher with id=" +:+ researcherId
                                  +:+ " not found."))), st)
      | Some _ =>
          let id := uuid env in
          let proposal :=
            ResearchProposal.mk id researcherId title description
              methodology [] funding_target 0 "draft" [] (now env) in
          (Return (Ok proposal),
           set_proposals st (<[id := proposal]> (proposals st)))
      end).

Definition getProposalById (v : Variant) (proposalId : text)
    : State -> Result ResearchProposal.t * State :=
  try_id v proposalId (fun st =>
    match proposals st !! proposalId with
    | None =>
        (Return (Err (NotFound ("Proposal with id=" +:+ proposalId
                                +:+ " not found."))), st)
    | Some proposalOpt => (Return (Ok_of (dot_Some v proposalOpt)), st)
    end).

Definition getAllproposals (st : State)
    : Result (list ResearchProposal.t) * State :=
  let allproposals := values (proposals st) in
  match allproposals with
  | [] => (Err (NotFound "No proposals found."), st)
  | _ => (Ok allproposals, st)
  end.

Definition getProposalsByResearcherId (v : Variant) (researcherId : text)
    : State -> Result (list ResearchProposal.t) * State :=
  try_id v researcherId (fun st =>
    let proposalsByResearcher :=
      List.filter
        (fun p => String.eqb (ResearchProposal.researcherId p) researcherId)
        (values (proposals st)) in
    match proposalsByResearcher with
    | [] =>
        (Return (Err (NotFound ("No proposals found for researcher with id="
                                +:+ researcherId +:+ "."))), st)
    | _ => (Return (Ok proposalsByResearcher), st)
    end).

(** The review is stored before the proposal is read from [proposalOpt]. *)
Definition submitReview (v : Variant) (env : Env) (proposal_id : text)
    (score : nat64) (comments : text) (stake_amount : nat64)
    : State -> Result Review.t * State :=
  try_id v proposal_id (fun st =>
    match proposals st !! proposal_id with
    | None =>
        (Return (Err (NotFound ("Proposal with id=" +:+ proposal_id
                                +:+ " not found."))), st)
    | Some proposalOpt =>
        if (score <? 1) || (10 <? score) || (stake_amount <? 100) then
          (Return (Err (InvalidPayload
                     "Invalid score or insufficient stake amount.")), st)
        else
          let reviewId := uuid env in
          let review :=
            Review.mk reviewId (caller env) score comments stake_amount
              false in
          let st1 := set_reviews st (<[reviewId := review]> (reviews st)) in
          match dot_Some v proposalOpt with
          | None => (Raise (TypeError "reviews"), st1)
          | Some proposal =>
              let proposal :=
                ResearchProposal.push_review proposal reviewId in
              (Return (Ok review),
               set_proposals st1
                 (<[proposal_id := proposal]> (proposals st1)))
          end
    end).

(** The proposal is read from [proposalOpt] before the amount is checked,
    and first used after it. *)
Definition fundProposal (v : Variant) (proposal_id : text)
    (funding_amount : nat64)
    : State -> Result ResearchProposal.t * State :=
  try_id v proposal_id (fun st =>
    match proposals st !! proposal_id with
    | None =>
        (Return (Err (NotFound ("Proposal with id=" +:+ proposal_id
                                +:+ " not found."))), st)
    | Some proposalOpt =>
        let proposal := dot_Some v proposalOpt in
        if funding_amount <? 100 then
          (Return (Err (InvalidPayload
                     "Minimum funding amount is 100 units.")), st)
        else
          match proposal with
          | None => (Raise (TypeError "current_funding"), st)
          | Some proposal =>
              let proposal :=
                ResearchProposal.set_current_funding proposal
                  (ResearchProposal.current_funding proposal
                   + funding_amount) in
              let proposal :=
                if ResearchProposal.funding_target proposal
                   <=? ResearchProposal.current_funding proposal
                then ResearchProposal.set_stage proposal "funding"
                else proposal in
              if nat64_ok (ResearchProposal.current_funding proposal) then
                (Return (Ok proposal),
                 set_proposals st
                   (<[proposal_id := proposal]> (proposals st)))
              else
                (Raise
                   (OutOfRange (ResearchProposal.current_funding proposal)),
                 st)
          end
    end).

(** The milestone is stored before the proposal is read from
    [proposalOpt]. *)
Definition createMilestone (v : Variant) (env : Env) (proposal_id : text)
    (description : text) (required_funding : nat64) (deadline : text)
    : State -> Result Milestone.t * State :=
  try_id v proposal_id (fun st =>
    match proposals st !! proposal_id with
    | None =>
        (Return (Err (NotFound ("Proposal with id=" +:+ proposal_id
                                +:+ " not found."))), st)
    | Some proposalOpt =>
        let milestoneId := uuid env in
        let milestone :=
          Milestone.mk milestoneId description required_funding deadline
            "pending" [] in
        let st1 :=
          set_milestones st (<[milestoneId := milestone]> (milestones st)) in
        match dot_Some v proposalOpt with
        | None => (Raise (TypeError "milestones"), st1)
        | Some proposal =>
            let proposal :=
              ResearchProposal.push_milestone proposal milestoneId in
            (Return (Ok milestone),
             set_proposals st1
               (<[proposal_id := proposal]> (proposals st1)))
        end
    end).

(** Only [milestone_id] goes through [idPayloadValid] here. *)
Definition verifyMilestone (v : Variant) (proposal_id milestone_id : text)
    : State -> Result Milestone.t * State :=
  try_id v milestone_id (fun st =>
    match proposals st !! proposal_id, milestones st !! milestone_id with
    | Some _, Some milestoneOpt =>
        match dot_Some v milestoneOpt with
        | None => (Raise (TypeError "status"), st)
        | Some milestone =>
            if negb (String.eqb (Milestone.status milestone) "pending") then
              (Return (Err (InvalidPayload
                         "Milestone is not in a pending state.")), st)
            else
              let milestone := Milestone.set_status milestone "completed" in
              (Return (Ok milestone),
               set_milestones st
                 (<[milestone_id := milestone]> (milestones st)))
        end
    | _, _ => (Return (Err (NotFound "Proposal or Milestone not found.")), st)
    end).

(** The proof is stored before the milestone is read from
    [milestoneOpt]. *)
Definition submitProof (v : Variant) (env : Env) (milestone_id : text)
    (methodology_hash results_hash : text)
    : State -> Result ProofOfReproduction.t * State :=
  try_id v milestone_id (fun st =>
    match milestones st !! milestone_id with
    | None =>
        (Return (Err (NotFound ("Milestone with id=" +:+ milestone_id
                                +:+ " not found."))), st)
    | Some milestoneOpt =>
        let proofId := uuid env in
        let proof :=
          ProofOfReproduction.mk proofId methodology_hash results_hash
            "pending" in
        let st1 := set_proofs st (<[proofId := proof]> (proofs st)) in
        match dot_Some v milestoneOpt with
        | None => (Raise (TypeError "proofs"), st1)
        | Some milestone =>
            let milestone := Milestone.push_proof milestone proofId in
            (Return (Ok proof),
             set_milestones st1
               (<[milestone_id := milestone]> (milestones st1)))
        end
    end).

(** The public methods, and the canister as a machine: a call takes the
    state to the state its handler leaves behind. *)
Inductive Call :=
| CreateResearcher (name address email phone : text)
| GetResearcherById (researcherId : text)
| GetAllResearchers
| GetResearcherByOwner
| CreateProposal (researcherId title description methodology : text)
                 (funding_target : nat64)
| GetProposalById (proposalId : text)
| GetAllproposals
| GetProposalsByResearcherId (researcherId : text)
| SubmitReview (proposal_id : text) (score : nat64) (comments : text)
               (stake_amount : nat64)
| FundProposal (proposal_id : text) (funding_amount : nat64)
| CreateMilestone (proposal_id description : text)
                  (required_funding : nat64) (deadline : text)
| VerifyMilestone (proposal_id milestone_id : text)
| SubmitProof (milestone_id methodology_hash results_hash : text).

Definition exec (v : Variant) (env : Env) (c : Call) (st : State) : State :=
  match c with
  | CreateResearcher n a e p => (createResearcher env n a e p st).2
  | GetResearcherById i => (getResearcherById v i st).2
  | GetAllResearchers => (getAllResearchers st).2
  | GetResearcherByOwner => (getResearcherByOwner env st).2
  | CreateProposal r t d m f => (createProposal v env r t d m f st).2
  | GetProposalById i => (getProposalById v i st).2
  | GetAllproposals => (getAllproposals st).2
  | GetProposalsByResearcherId i => (getProposalsByResearcherId v i st).2
  | SubmitReview p s c k => (submitReview v env p s c k st).2
  | FundProposal p a => (fundProposal v p a st).2
  | CreateMilestone p d r l => (createMilestone v env p d r l st).2
  | VerifyMilestone p m => (verifyMilestone v p m st).2
  | SubmitProof m h r => (submitProof v env m h r st).2
  end.

(** The states the canister can be in: the empty one, and those that a
    call leads to. *)
Inductive reachable (v : Variant) : State -> Prop :=
| reachable_empty : reachable v empty
| reachable_exec env c st :
    Text.is_uuid (uuid env) = true ->
    reachable v st -> reachable v (exec v env c st).

End Core.

(** ** The reputation variant

    The variant that tracks points keys the researcher profiles by the
    caller's principal.  Its file gives the handlers that change with it;
    the maps [Proposals] and [Reviews] and the payloads are those of the
    canister above, with the fields the variant adds. *)

Module Points.

Module Researcher.
Record t := mk {
  principal : Principal;
  reputation_score : nat64;
  total_points : nat64;
  badges : list text;
  contributions : list text;
  achievements : list text
}.
End Researcher.

Module Badge.
Record t := mk {
  id : text;
  name : text;
  description : text;
  points_threshold : nat64
}.
End Badge.

Module ResearchProposal.
Record t := mk {
  id : text;
  researcher : Principal;
  title : text;
  description : text;
  methodology : text;
  milestones : list text;
  funding_target : nat64;
  current_funding : nat64;
  stage : text;
  reviews : list text;
  timeline : text;
  contributors_points : list (Principal * nat64)
}.
End ResearchProposal.

Module Review.
Record t := mk {
  id : text;
  reviewer : Principal;
  score : nat64;
  comments : text;
  stake_amount : nat64;
  verified : bool;
  points_earned : nat64
}.
End Review.

Module POINTS.
Definition REVIEW_BASE : nat64 := 10.
Definition REVIEW_QUALITY_MULTIPLIER : nat64 := 2.
Definition FUNDING_BASE : nat64 := 1.
Definition MILESTONE_COMPLETION : nat64 := 50.
Definition PROOF_VERIFICATION : nat64 := 30.
Definition PROPOSAL_CREATION : nat64 := 20.
End POINTS.

Definition DEFAULT_BADGES : list Badge.t :=
  [ Badge.mk "research_starter" "Research Starter"
      "Created first research proposal" 20;
    Badge.mk "funding_champion" "Funding Champion"
      "Contributed significant funding to research" 500;
    Badge.mk "review_master" "Review Master"
      "Provided high-quality reviews" 200 ].

Record State := mkState {
  Researchers : gmap Principal Researcher.t;
  Badges : gmap text Badge.t;
  Proposals : gmap text ResearchProposal.t;
  Reviews : gmap text Review.t
}.

Definition empty : State := mkState ∅ ∅ ∅ ∅.

Definition init (st : State) : Result (list Badge.t) * State :=
  (Ok DEFAULT_BADGES,
   mkState (Researchers st)
     (foldl (fun m badge => <[Badge.id badge := badge]> m)
            (Badges st) DEFAULT_BADGES)
     (Proposals st) (Reviews st)).

(** [researcherOpt.Some || { principal: caller, ... }] *)
Definition profile (st : State) (caller : Principal) : Researcher.t :=
  match Researchers st !! caller with
  | Some r => r
  | None => Researcher.mk caller 0 0 [] [] []
  end.

(** [if (!badges.includes(b)) badges.push(b)] *)
Definition push_new (b : text) (badges : list text) : list text :=
  if bool_decide (b ∈ badges) then badges else badges ++ [b].

Definition createProposal (env : Env)
    (title description methodology : text) (funding_target : nat64)
    (st : State) : Result ResearchProposal.t * State :=
  if Text.falsy title || Text.falsy description || Text.falsy methodology
     || (funding_target <=? 0) then
    (Err (InvalidPayload
            "All fields are required, and funding target must be > 0."), st)
  else
    let id := uuid env in
    let caller := caller env in
    let researcher := profile st caller in
    let researcher :=
      Researcher.mk (Researcher.principal researcher)
        (Researcher.reputation_score researcher)
        (Researcher.total_points researcher + POINTS.PROPOSAL_CREATION)
        (push_new "research_starter" (Researcher.badges researcher))
        (Researcher.contributions researcher ++ [id])
        (Researcher.achievements researcher) in
    let proposal :=
      ResearchProposal.mk id caller title description methodology []
        funding_target 0 "draft" [] (now env) [] in
    (Ok proposal,
     mkState (<[caller := researcher]> (Researchers st)) (Badges st)
       (<[id := proposal]> (Proposals st)) (Reviews st)).

Definition submitReview (env : Env) (proposal_id : text) (score : nat64)
    (comments : text) (stake_amount : nat64)
    (st : State) : Result Review.t * State :=
  let caller := caller env in
  match Proposals st !! proposal_id with
  | None =>
      (Err (NotFound ("Proposal with id=" +:+ proposal_id
                      +:+ " not found.")), st)
  | Some proposal =>
      if (score <? 1) || (10 <? score) || (stake_amount <? 100) then
        (Err (InvalidPayload
                "Invalid score or insufficient stake amount."), st)
      else
        let points_earned :=
          POINTS.REVIEW_BASE * score * POINTS.REVIEW_QUALITY_MULTIPLIER in
        let reviewId := uuid env in
        let review :=
          Review.mk reviewId caller score comments stake_amount false
            points_earned in
        let researcher := profile st caller in
        let total_points :=
          Researcher.total_points researcher + points_earned in
        let badges :=
          match Badges st !! "review_master" with
          | Some reviewMasterBadge =>
              if Badge.points_threshold reviewMasterBadge <=? total_points
              then push_new "review_master" (Researcher.badges researcher)
              else Researcher.badges researcher
          | None => Researcher.badges researcher
          end in
        let researcher :=
          Researcher.mk (Researcher.principal researcher)
            (Researcher.reputation_score researcher)
            total_points badges
            (Researcher.contributions researcher ++ [reviewId])
            (Researcher.achievements researcher) in
        let proposal :=
          ResearchProposal.mk (ResearchProposal.id proposal)
            (ResearchProposal.researcher proposal)
            (ResearchProposal.title proposal)
            (ResearchProposal.description proposal)
            (ResearchProposal.methodology proposal)
            (ResearchProposal.milestones proposal)
            (ResearchProposal.funding_target proposal)
            (ResearchProposal.current_funding proposal)
            (ResearchProposal.stage proposal)
            (ResearchProposal.reviews proposal ++ [reviewId])
            (ResearchProposal.timeline proposal)
            (ResearchProposal.contributors_points proposal
               ++ [(caller, points_earned)]) in
        (Ok review,
         mkState (<[caller := researcher]> (Researchers st)) (Badges st)
           (<[proposal_id := proposal]> (Proposals st))
           (<[reviewId := review]> (Reviews st)))
  end.

Definition getResearcherProfile (principal : Principal) (st : State)
    : Result Researcher.t * State :=
  match Researchers st !! principal with
  | None => (Err (NotFound "Researcher profile not found."), st)
  | Some r => (Ok r, st)
  end.

(** The update methods, and the profile query.  The leaderboard is a query
    too: it sorts the array that [values()] hands out and leaves the maps
    alone. *)
Inductive Call :=
| Init
| CreateProposal (title description methodology : text)
                 (funding_target : nat64)
| SubmitReview (proposal_id : text) (score : nat64) (comments : text)
               (stake_amount : nat64)
| GetResearcherProfile (principal : Principal)
| GetResearcherLeaderboard.

Definition exec (env : Env) (c : Call) (st : State) : State :=
  match c with
  | Init => (init st).2
  | CreateProposal t d m f => (createProposal env t d m f st).2
  | SubmitReview p s c k => (submitReview env p s c k st).2
  | GetResearcherProfile p => (getResearcherProfile p st).2
  | GetResearcherLeaderboard => st
  end.

Inductive reachable : State -> Prop :=
| reachable_empty : reachable empty
| reachable_exec env c st :
    Text.is_uuid (uuid env) = true ->
    reachable st -> reachable (exec env c st).

End Points.

(** ** Predicates of the statements *)

(** An identifier that is empty or made of white space only. *)
Definition blank (id : text) : bool := Text.all Text.is_space id.

(** Every identifier a record refers to names a record of its store. *)
Definition refs_ok (st : Core.State) : Prop :=
  map_Forall (fun _ p =>
      Forall (fun m => is_Some (Core.milestones st !! m))
             (ResearchProposal.milestones p)
      /\ Forall (fun r => is_Some (Core.reviews st !! r))
                (ResearchProposal.reviews p))
    (Core.proposals st)
  /\ map_Forall (fun _ m =>
         Forall (fun x => is_Some (Core.proofs st !! x)) (Milestone.proofs m))
       (Core.milestones st).

(** No review is verified and every proof is pending. *)
Definition unverified (st : Core.State) : Prop :=
  map_Forall (fun _ r => Review.verified r = false) (Core.reviews st)
  /\ map_Forall (fun _ p => ProofOfReproduction.status p = "pending")
       (Core.proofs st).

Definition points_unverified (st : Points.State) : Prop :=
  map_Forall (fun _ r => Points.Review.verified r = false) (Points.Reviews st).

(** The keys of the maps pass the identifier check. *)
Definition keys_valid (st : Core.State) : Prop :=
  (forall k, is_Some (Core.researchers st !! k) -> Core.idPayloadValid k = None)
  /\ (forall k, is_Some (Core.proposals st !! k) -> Core.idPayloadValid k = None)
  /\ (forall k, is_Some (Core.milestones st !! k) -> Core.idPayloadValid k = None)
  /\ (forall k, is_Some (Core.reviews st !! k) -> Core.idPayloadValid k = None)
  /\ (forall k, is_Some (Core.proofs st !! k) -> Core.idPayloadValid k = None).

(** The identifier check lets [id] through in the copy [v]: the plain copy
    checks nothing. *)
Definition passes (v : Core.Variant) (id : text) : Prop :=
  match v with
  | Core.Guarded => Core.idPayloadValid id = None
  | Core.Plain => True
  end.






(** The badges of a profile were paid for: only the two badges that a
    handler grants occur, each with its threshold reached. *)
Definition earned (r : Points.Researcher.t) : Prop :=
  (forall b, b ∈ Points.Researcher.badges r ->
             b = "research_starter" \/ b = "review_master")
  /\ ("research_starter" ∈ Points.Researcher.badges r ->
      20 <= Points.Researcher.total_points r)
  /\ ("review_master" ∈ Points.Researcher.badges r ->
      200 <= Points.Researcher.total_points r).

(** The badge map holds nothing but entries of the catalog, under their
    own identifiers. *)
Definition catalog_ok (st : Points.State) : Prop :=
  forall k b, Points.Badges st !! k = Some b ->
              b ∈ Points.DEFAULT_BADGES /\ Points.Badge.id b = k.

Definition badges_earned (st : Points.State) : Prop :=
  catalog_ok st /\ map_Forall (fun _ r => earned r) (Points.Researchers st).

(** A badge is held exactly when its threshold is reached. *)
Definition badge_iff_threshold (st : Points.State) : Prop :=
  forall k r b,
    Points.Researchers st !! k = Some r ->
    b ∈ Points.DEFAULT_BADGES ->
    (Points.Badge.id b ∈ Points.Researcher.badges r
     <-> Points.Badge.points_threshold b <= Points.Researcher.total_points r).

(** ** Predicates of the further properties *)

Definition points_answered_Ok (env : Env) (c : Points.Call)
    (st : Points.State) : bool :=
  match c with
  | Points.Init => is_Ok (Points.init st).1
  | Points.CreateProposal t d m f =>
      is_Ok (Points.createProposal env t d m f st).1
  | Points.SubmitReview p s c k =>
      is_Ok (Points.submitReview env p s c k st).1
  | Points.GetResearcherProfile p =>
      is_Ok (Points.getResearcherProfile p st).1
  | Points.GetResearcherLeaderboard => true
  end.

(** A code unit that is neither white space nor an upper-case letter. *)
Definition plain_unit (c : ascii) : bool :=
  negb (Text.is_space c) && negb (Text.is_upper c).

(** A researcher as [createResearcher] writes it. *)
Definition normalised (r : Researcher.t) : Prop :=
  Text.trim (Researcher.name r) = Researcher.name r
  /\ 2 <= Text.length (Researcher.name r)
  /\ Text.trim (Researcher.address r) = Researcher.address r
  /\ 5 <= Text.length (Researcher.address r)
  /\ Text.all plain_unit (Researcher.email r) = true
  /\ Text.all Text.is_digit (Researcher.phone r) = true
  /\ 10 <= Text.length (Researcher.phone r) <= 15
  /\ Researcher.reputation_score r = 0
  /\ Researcher.total_points r = 0
  /\ Researcher.badges r = []
  /\ Researcher.contributions r = []
  /\ Researcher.achievements r = [].

Definition phones_unique (st : Core.State) : Prop :=
  forall k1 k2 r1 r2,
    Core.researchers st !! k1 = Some r1 ->
    Core.researchers st !! k2 = Some r2 ->
    k1 <> k2 ->
    Researcher.phone r1 <> Researcher.phone r2.

(** Every record sits under its own identifier. *)
Definition ids_match (st : Core.State) : Prop :=
  map_Forall (fun k r => Researcher.id r = k) (Core.researchers st)
  /\ map_Forall (fun k p => ResearchProposal.id p = k) (Core.proposals st)
  /\ map_Forall (fun k m => Milestone.id m = k) (Core.milestones st)
  /\ map_Forall (fun k r => Review.id r = k) (Core.reviews st)
  /\ map_Forall (fun k x => ProofOfReproduction.id x = k) (Core.proofs st).

(** Every proposal belongs to a stored researcher. *)
Definition owners_stored (st : Core.State) : Prop :=
  map_Forall (fun _ p =>
      is_Some (Core.researchers st !! ResearchProposal.researcherId p))
    (Core.proposals st).

(** The stage of a proposal says whether its positive target is reached,
    and a milestone is pending or completed. *)
Definition lifecycle_ok (st : Core.State) : Prop :=
  map_Forall (fun _ p =>
      0 < ResearchProposal.funding_target p
      /\ ResearchProposal.stage p
         = (if ResearchProposal.funding_target p
               <=? ResearchProposal.current_funding p
            then "funding" else "draft"))
    (Core.proposals st)
  /\ map_Forall (fun _ m =>
         Milestone.status m = "pending" \/ Milestone.status m = "completed")
       (Core.milestones st).

(** A stored review carries a score from 1 to 10 and a stake of 100 or
    more. *)
Definition reviews_valid (st : Core.State) : Prop :=
  map_Forall (fun _ r =>
      1 <= Review.score r <= 10 /\ 100 <= Review.stake_amount r)
    (Core.reviews st).

(** The points variant: a profile's points against its contributions. *)
Definition points_bounded (r : Points.Researcher.t) : Prop :=
  20 * N.of_nat (List.length (Points.Researcher.contributions r))
  <= Points.Researcher.total_points r
  /\ Points.Researcher.total_points r
     <= 200 * N.of_nat (List.length (Points.Researcher.contributions r))
  /\ (Points.Researcher.total_points r) mod 20 = 0.

(** The ledger of a proposal has one entry of 20 to 200 points per review,
    each under a principal that has a profile; the reviews are stored, and
    the author of the proposal holds the starter badge. *)
Definition ledger_entry_ok (st : Points.State)
    (p : Points.ResearchProposal.t) : Prop :=
  List.length (Points.ResearchProposal.contributors_points p)
  = List.length (Points.ResearchProposal.reviews p)
  /\ Forall (fun e => 20 <= e.2 <= 200
                      /\ is_Some (Points.Researchers st !! e.1))
            (Points.ResearchProposal.contributors_points p)
  /\ Forall (fun r => is_Some (Points.Reviews st !! r))
            (Points.ResearchProposal.reviews p)
  /\ exists a,
       Points.Researchers st !! Points.ResearchProposal.researcher p = Some a
       /\ "research_starter" ∈ Points.Researcher.badges a.

Definition ledger_ok (st : Points.State) : Prop :=
  map_Forall (fun _ p => ledger_entry_ok st p) (Points.Proposals st).

Definition points_reviews_valid (st : Points.State) : Prop :=
  map_Forall (fun _ r =>
      1 <= Points.Review.score r <= 10
      /\ 100 <= Points.Review.stake_amount r
      /\ Points.Review.verified r = false
      /\ Points.Review.points_earned r = 20 * Points.Review.score r)
    (Points.Reviews st).

(** The identifier is the key of no record yet, as one that [uuidv4()]
    has just drawn is. *)
Definition unused (st : Core.State) (id : text) : Prop :=
  Core.researchers st !! id = None
  /\ Core.proposals st !! id = None
  /\ Core.milestones st !! id = None
  /\ Core.reviews st !! id = None
  /\ Core.proofs st !! id = None.

(** What a call may do to a stored proposal and to a stored milestone: add
    funding, move the stage, append to the lists, complete the milestone. *)
Definition proposal_grows (p p' : ResearchProposal.t) : Prop :=
  ResearchProposal.id p' = ResearchProposal.id p
  /\ ResearchProposal.researcherId p' = ResearchProposal.researcherId p
  /\ ResearchProposal.title p' = ResearchProposal.title p
  /\ ResearchProposal.description p' = ResearchProposal.description p
  /\ ResearchProposal.methodology p' = ResearchProposal.methodology p
  /\ ResearchProposal.funding_target p' = ResearchProposal.funding_target p
  /\ ResearchProposal.timeline p' = ResearchProposal.timeline p
  /\ ResearchProposal.milestones p `prefix_of` ResearchProposal.milestones p'
  /\ ResearchProposal.reviews p `prefix_of` ResearchProposal.reviews p'
  /\ ResearchProposal.current_funding p
     <= ResearchProposal.current_funding p'.

Definition milestone_grows (m m' : Milestone.t) : Prop :=
  Milestone.id m' = Milestone.id m
  /\ Milestone.description m' = Milestone.description m
  /\ Milestone.required_funding m' = Milestone.required_funding m
  /\ Milestone.deadline m' = Milestone.deadline m
  /\ Milestone.proofs m `prefix_of` Milestone.proofs m'
  /\ (Milestone.status m = "completed" -> Milestone.status m' = "completed").

(** ** A run of each canister, for the examples *)

Module Demo.

Definition id1 : text := "11111111-1111-4111-8111-111111111111".
Definition id2 : text := "22222222-2222-4222-8222-222222222222".
Definition id3 : text := "33333333-3333-4333-8333-333333333333".
Definition id4 : text := "44444444-4444-4444-8444-444444444444".
Definition id5 : text := "55555555-5555-4555-8555-555555555555".

Definition alice (id : text) : Env := mkEnv "alice" id "2024-05-01".
Definition bob (id : text) : Env := mkEnv "bob" id "2024-05-02".

(** A researcher and her proposal with a target of 1000; then the calls
    that create a milestone under it, submit a proof for the milestone and
    review the proposal.  In the second copy each of these records is
    attached to the record it belongs to; in the first copy each is stored
    and left unattached. *)
Definition registered (v : Core.Variant) : Core.State :=
  Core.exec v (alice id1)
    (Core.CreateResearcher "Jane Smith" "123 Research Ave"
       "jane.smith@research.org" "1234567890")
    Core.empty.

Definition proposed (v : Core.Variant) : Core.State :=
  Core.exec v (alice id2)
    (Core.CreateProposal id1 "Quantum codes" "Error correction"
       "Topological codes" 1000)
    (registered v).

Definition planned (v : Core.Variant) : Core.State :=
  Core.exec v (alice id3)
    (Core.CreateMilestone id2 "Prototype" 500 "2025-01-01") (proposed v).

Definition proved (v : Core.Variant) : Core.State :=
  Core.exec v (alice id4) (Core.SubmitProof id3 "0xabc" "0xdef") (planned v).

Definition reviewed (v : Core.Variant) : Core.State :=
  Core.exec v (bob id5) (Core.SubmitReview id2 9 "Clear method" 1000)
    (proved v).

(** The points variant: the badges are seeded, alice creates a proposal
    and bob reviews it with the lowest score. *)
Definition seeded : Points.State :=
  Points.exec (alice id1) Points.Init Points.empty.

Definition created : Points.State :=
  Points.exec (alice id2)
    (Points.CreateProposal "Quantum codes" "Error correction"
       "Topological codes" 1000)
    seeded.

Definition scored : Points.State :=
  Points.exec (bob id3) (Points.SubmitReview id2 1 "Thin" 100) created.

End Demo.

(** ** Lemmas on strings *)

Example trim_example : Text.trim "  Jane  Smith  " = "Jane  Smith".
Proof. reflexivity. Qed.

Example toLowerCase_example :
  Text.toLowerCase "Jane.Smith@Research.ORG" = "jane.smith@research.org".
Proof. reflexivity. Qed.

Example strip_example : Text.strip_non_digits "+1 (234) 567-8901" = "12345678901".
Proof. reflexivity. Qed.

Example emailRegex_examples :
  List.map Text.emailRegex_test
    ["a@b.c"; "jane.smith@research.org"; "a@b.c.d"; "a@b"; "a@.c"; "a@b.";
     "@b.c"; "a@@b.c"; " a@b.c"; "a@b.c "; "a b@c.d"]
  = [true; true; true; false; false; false; false; false; false; false; false].
Proof. vm_compute. reflexivity. Qed.

Example phoneRegex_examples :
  List.map Text.phoneRegex_test
    ["1234567890"; "123456789012345"; "123456789"; "1234567890123456";
     "123-456-7890"; "12345 67890"]
  = [true; true; false; false; false; false].
Proof. vm_compute. reflexivity. Qed.

Example is_uuid_example :
  Text.is_uuid "9b1deb4d-3b7d-4bad-9bdd-2b0d7b3dcb6d" = true
  /\ Text.is_uuid "9b1deb4d3b7d4bad9bdd2b0d7b3dcb6d" = false.
Proof. split; vm_compute; reflexivity. Qed.

Lemma is_hex_not_space c : Text.is_hex c = true -> Text.is_space c = false.
Proof.
  unfold Text.is_hex, Text.is_digit, Text.is_space.
  generalize (Text.code c). intros n H.
  repeat match goal with
         | |- context [N.leb ?a ?b] => destruct (N.leb_spec a b)
         | |- context [N.eqb ?a ?b] => destruct (N.eqb_spec a b)
         | H : context [N.leb ?a ?b] |- _ => destruct (N.leb_spec a b)
         end; simpl in *; try reflexivity; try discriminate; lia.
Qed.

Lemma trimEnd_head c s :
  Text.is_space c = false -> Text.trimEnd (String c s) = String c (Text.trimEnd s).
Proof. intros H. simpl. rewrite H. by destruct (Text.trimEnd s). Qed.

Lemma idPayloadValid_head c s :
  Text.is_space c = false -> Core.idPayloadValid (String c s) = None.
Proof.
  intros H. unfold Core.idPayloadValid, Text.trim. simpl. rewrite H.
  by rewrite trimEnd_head.
Qed.

Lemma trimStart_blank s : blank s = true -> Text.trimStart s = EmptyString.
Proof.
  induction s as [|c s IH]; simpl; [done|].
  intros [Hc Hs]%andb_true_iff. rewrite Hc. auto.
Qed.

Lemma idPayloadValid_blank s :
  blank s = true ->
  Core.idPayloadValid s
  = Some (Core.Throw (InvalidPayload "Please provide a valid ID as text.")).
Proof.
  intros H. unfold Core.idPayloadValid, Text.trim.
  rewrite (trimStart_blank _ H). simpl. by rewrite orb_true_r.
Qed.

Lemma is_uuid_valid s : Text.is_uuid s = true -> Core.idPayloadValid s = None.
Proof.
  unfold Text.is_uuid. intros [_ H]%andb_true_iff.
  destruct s as [|c s]; [discriminate|].
  apply idPayloadValid_head, is_hex_not_space.
  simpl in H. apply andb_true_iff in H as [H _]. exact H.
Qed.

Lemma strip_digits s :
  Text.all Text.is_digit s = true -> Text.strip_non_digits s = s.
Proof.
  unfold Text.strip_non_digits.
  induction s as [|c s IH]; simpl; [done|].
  intros [Hc Hs]%andb_true_iff. rewrite Hc. f_equal. auto.
Qed.

(** ** One call of the canister *)

(** Case analysis along the branches of a handler. *)
Ltac branches :=
  unfold Core.try_id, Core.finish, Core.dot_Some, Core.Ok_of;
  repeat match goal with
         | |- context [match ?v with Core.Guarded => _ | Core.Plain => _ end] =>
             destruct v
         | |- context [match Core.idPayloadValid ?i with _ => _ end] =>
             destruct (Core.idPayloadValid i) eqn:?
         | |- context [match ?m !! ?k with _ => _ end] =>
             destruct (m !! k) eqn:?
         | |- context [match List.find ?f ?l with _ => _ end] =>
             destruct (List.find f l) eqn:?
         | |- context [match List.filter ?f ?l with _ => _ end] =>
             destruct (List.filter f l) eqn:?
         | |- context [match Core.values ?m with _ => _ end] =>
             destruct (Core.values m) eqn:?
         | |- context [if ?b then _ else _] => destruct b eqn:?
         end;
  simpl.

Ltac handlers :=
  unfold Core.createResearcher, Core.getResearcherById,
    Core.getAllResearchers, Core.getResearcherByOwner, Core.createProposal,
    Core.getProposalById, Core.getAllproposals,
    Core.getProposalsByResearcherId, Core.submitReview, Core.fundProposal,
    Core.createMilestone, Core.verifyMilestone, Core.submitProof.

Lemma is_Some_insert {V} (m : gmap text V) i x k :
  is_Some (m !! k) -> is_Some (<[i := x]> m !! k).
Proof.
  intros H. destruct (decide (i = k)) as [->|Hne].
  - rewrite lookup_insert_eq. eauto.
  - by rewrite lookup_insert_ne.
Qed.

Lemma Forall_is_Some_insert {V} (m : gmap text V) i x (l : list text) :
  Forall (fun k => is_Some (m !! k)) l ->
  Forall (fun k => is_Some (<[i := x]> m !! k)) l.
Proof.
  intros H. eapply Forall_impl; [exact H|]. intros k. apply is_Some_insert.
Qed.

Lemma exec_unverified v env c st :
  unverified st -> unverified (Core.exec v env c st).
Proof.
  intros [Hr Hp]. destruct c; simpl; handlers; branches;
    try (split; assumption); split; simpl; try assumption;
    by apply map_Forall_insert_2.
Qed.

Lemma exec_keys_valid v env c st :
  Text.is_uuid (uuid env) = true ->
  keys_valid st -> keys_valid (Core.exec v env c st).
Proof.
  intros Hu%is_uuid_valid (H1 & H2 & H3 & H4 & H5).
  assert (Hins : forall V (m : gmap text V) (x : V) k,
             (forall k, is_Some (m !! k) -> Core.idPayloadValid k = None) ->
             is_Some (<[uuid env := x]> m !! k) ->
             Core.idPayloadValid k = None).
  { intros V m x k Hm. destruct (decide (uuid env = k)) as [<-|Hne]; [done|].
    rewrite lookup_insert_ne; auto. }
  assert (Hsame : forall V (m : gmap text V) (x y : V) i k,
             m !! i = Some y ->
             (forall k, is_Some (m !! k) -> Core.idPayloadValid k = None) ->
             is_Some (<[i := x]> m !! k) ->
             Core.idPayloadValid k = None).
  { intros V m x y i k Hi Hm. destruct (decide (i = k)) as [<-|Hne].
    - intros _. apply Hm. eauto.
    - rewrite lookup_insert_ne; auto. }
  destruct c; simpl; handlers; branches;
    try (repeat split; assumption);
    repeat split; simpl; try assumption; eauto.
Qed.

Lemma refs_ok_proposal st pid p p' :
  refs_ok st ->
  Core.proposals st !! pid = Some p ->
  ResearchProposal.milestones p' = ResearchProposal.milestones p ->
  ResearchProposal.reviews p' = ResearchProposal.reviews p ->
  refs_ok (Core.set_proposals st (<[pid := p']> (Core.proposals st))).
Proof.
  intros [Hp Hm] Hpid Em Er. split; simpl; [|assumption].
  apply map_Forall_insert_2; [|assumption].
  rewrite Em, Er. exact (Hp _ _ Hpid).
Qed.

Lemma refs_ok_review st rid r pid p :
  refs_ok st ->
  Core.proposals st !! pid = Some p ->
  refs_ok
    (Core.set_proposals
       (Core.set_reviews st (<[rid := r]> (Core.reviews st)))
       (<[pid := ResearchProposal.push_review p rid]> (Core.proposals st))).
Proof.
  intros [Hp Hm] Hpid. split; simpl; [|assumption].
  apply map_Forall_insert_2; simpl.
  - destruct (Hp _ _ Hpid) as [H1 H2]. split; [assumption|].
    apply Forall_app. split.
    + by apply Forall_is_Some_insert.
    + apply Forall_singleton. rewrite lookup_insert_eq. eauto.
  - eapply map_Forall_impl; [exact Hp|]. simpl.
    intros _ q [H1 H2]. split; [assumption|].
    by apply Forall_is_Some_insert.
Qed.

Lemma refs_ok_milestone st mid d f l pid p :
  refs_ok st ->
  Core.proposals st !! pid = Some p ->
  refs_ok
    (Core.set_proposals
       (Core.set_milestones st
          (<[mid := Milestone.mk mid d f l "pending" []]> (Core.milestones st)))
       (<[pid := ResearchProposal.push_milestone p mid]> (Core.proposals st))).
Proof.
  intros [Hp Hm] Hpid. split; simpl.
  - apply map_Forall_insert_2; simpl.
    + destruct (Hp _ _ Hpid) as [H1 H2]. split; [|assumption].
      apply Forall_app. split.
      * by apply Forall_is_Some_insert.
      * apply Forall_singleton. rewrite lookup_insert_eq. eauto.
    + eapply map_Forall_impl; [exact Hp|]. simpl.
      intros _ q [H1 H2]. split; [|assumption].
      by apply Forall_is_Some_insert.
  - apply map_Forall_insert_2; simpl; [constructor|assumption].
Qed.

Lemma refs_ok_status st mid m m' :
  refs_ok st ->
  Core.milestones st !! mid = Some m ->
  Milestone.proofs m' = Milestone.proofs m ->
  refs_ok (Core.set_milestones st (<[mid := m']> (Core.milestones st))).
Proof.
  intros [Hp Hm] Hmid E. split; simpl.
  - eapply map_Forall_impl; [exact Hp|]. simpl.
    intros _ q [H1 H2]. split; [|assumption].
    by apply Forall_is_Some_insert.
  - apply map_Forall_insert_2; [|assumption].
    rewrite E. exact (Hm _ _ Hmid).
Qed.

Lemma refs_ok_proof st xid x mid m :
  refs_ok st ->
  Core.milestones st !! mid = Some m ->
  refs_ok
    (Core.set_milestones
       (Core.set_proofs st (<[xid := x]> (Core.proofs st)))
       (<[mid := Milestone.push_proof m xid]> (Core.milestones st))).
Proof.
  intros [Hp Hm] Hmid. split; simpl.
  - eapply map_Forall_impl; [exact Hp|]. simpl.
    intros _ q [H1 H2]. split; [|assumption].
    by apply Forall_is_Some_insert.
  - apply map_Forall_insert_2; simpl.
    + apply Forall_app. split.
      * apply Forall_is_Some_insert. exact (Hm _ _ Hmid).
      * apply Forall_singleton. rewrite lookup_insert_eq. eauto.
    + eapply map_Forall_impl; [exact Hm|]. simpl.
      intros _ q H. by apply Forall_is_Some_insert.
Qed.

Lemma refs_ok_orphan_review st rid r :
  refs_ok st ->
  refs_ok (Core.set_reviews st (<[rid := r]> (Core.reviews st))).
Proof.
  intros [Hp Hm]. split; simpl; [|assumption].
  eapply map_Forall_impl; [exact Hp|]. simpl.
  intros _ q [H1 H2]. split; [assumption|].
  by apply Forall_is_Some_insert.
Qed.

Lemma refs_ok_orphan_milestone st mid d f l :
  refs_ok st ->
  refs_ok
    (Core.set_milestones st
       (<[mid := Milestone.mk mid d f l "pending" []]> (Core.milestones st))).
Proof.
  intros [Hp Hm]. split; simpl.
  - eapply map_Forall_impl; [exact Hp|]. simpl.
    intros _ q [H1 H2]. split; [|assumption].
    by apply Forall_is_Some_insert.
  - apply map_Forall_insert_2; simpl; [constructor|assumption].
Qed.

Lemma refs_ok_orphan_proof st xid x :
  refs_ok st ->
  refs_ok (Core.set_proofs st (<[xid := x]> (Core.proofs st))).
Proof.
  intros [Hp Hm]. split; simpl; [assumption|].
  eapply map_Forall_impl; [exact Hm|]. simpl.
  intros _ q H. by apply Forall_is_Some_insert.
Qed.

Lemma exec_refs_ok v env c st : refs_ok st -> refs_ok (Core.exec v env c st).
Proof.
  intros H.
  destruct c; simpl; handlers; branches; try assumption;
    eauto using refs_ok_review, refs_ok_milestone, refs_ok_proof,
      refs_ok_orphan_review, refs_ok_orphan_milestone, refs_ok_orphan_proof;
    try (eapply refs_ok_proposal; eauto; fail);
    try (eapply refs_ok_status; eauto; fail).
  - destruct H as [Hp Hm]. split; simpl; [|assumption].
    apply map_Forall_insert_2; [by split|assumption].
  - destruct H as [Hp Hm]. split; simpl; [|assumption].
    apply map_Forall_insert_2; [by split|assumption].
Qed.

Ltac stored_fact :=
  match goal with
  | H : ?m !! ?k = Some ?t, F : map_Forall _ ?m |- _ =>
      pose proof (F _ _ H); clear H
  end.

Lemma exec_lifecycle_ok v env c st :
  lifecycle_ok st -> lifecycle_ok (Core.exec v env c st).
Proof.
  intros [Hp Hm].
  destruct c; simpl; handlers; branches;
    try (split; assumption);
    repeat stored_fact; simpl in *;
    (split; simpl; [try assumption|try assumption]);
    try (apply map_Forall_insert_2; simpl; [|assumption]);
    repeat match goal with
           | H : _ || _ = false |- _ => apply orb_false_iff in H as [H ?]
           | H : (_ <=? _) = true |- _ => apply N.leb_le in H
           | H : (_ <=? _) = false |- _ => apply N.leb_gt in H
           | H : _ /\ _ |- _ => destruct H
           end;
    auto;
    (split; [assumption || lia|]);
    repeat match goal with
           | H : ResearchProposal.stage _ = _ |- _ => rewrite H; clear H
           end;
    repeat match goal with
           | |- context [N.leb ?a ?b] => destruct (N.leb_spec a b)
           end;
    simpl; (reflexivity || lia).
Qed.

(** ** One call of the points variant *)

Lemma push_new_elem b x l : x ∈ Points.push_new b l <-> x ∈ l \/ x = b.
Proof.
  unfold Points.push_new. case_bool_decide as Hb.
  - split; [auto|]. intros [H| ->]; assumption.
  - rewrite elem_of_app, list_elem_of_singleton. tauto.
Qed.

Lemma earned_profile st c :
  badges_earned st -> earned (Points.profile st c).
Proof.
  intros [_ H]. unfold Points.profile.
  destruct (Points.Researchers st !! c) as [r|] eqn:E.
  - exact (H _ _ E).
  - repeat split; simpl; intros; exfalso; eapply not_elem_of_nil; eauto.
Qed.

Lemma review_master_threshold st b :
  catalog_ok st ->
  Points.Badges st !! "review_master" = Some b ->
  Points.Badge.points_threshold b = 200.
Proof.
  intros H E. destruct (H _ _ E) as [Hin Hid].
  unfold Points.DEFAULT_BADGES in Hin.
  rewrite !elem_of_cons in Hin.
  destruct Hin as [->|[->|[->|Hin]]]; simpl in Hid;
    try discriminate; try reflexivity.
  by apply elem_of_nil in Hin.
Qed.

Lemma init_catalog_ok st : catalog_ok st -> catalog_ok (Points.init st).2.
Proof.
  intros H k b. simpl.
  repeat (rewrite lookup_insert; case_decide;
          [intros [= <-]; subst k; split;
           [unfold Points.DEFAULT_BADGES; rewrite !elem_of_cons; auto
           |reflexivity]|]).
  apply H.
Qed.

Lemma exec_points_unverified env c st :
  points_unverified st -> points_unverified (Points.exec env c st).
Proof.
  unfold points_unverified. intros H.
  destruct c; simpl; try assumption.
  - unfold Points.createProposal. by destruct (_ || _).
  - unfold Points.submitReview.
    destruct (Points.Proposals st !! proposal_id); [|assumption].
    destruct (_ || _); [assumption|]. simpl.
    by apply map_Forall_insert_2.
  - unfold Points.getResearcherProfile.
    by destruct (Points.Researchers st !! principal).
Qed.

Lemma exec_badges_earned env c st :
  badges_earned st -> badges_earned (Points.exec env c st).
Proof.
  intros Hst. pose proof Hst as [Hc Hr].
  destruct c; simpl; try assumption.
  - split; [by apply init_catalog_ok|assumption].
  - unfold Points.createProposal. destruct (_ || _); [assumption|].
    split; [assumption|]. simpl. apply map_Forall_insert_2; [|assumption].
    destruct (earned_profile st (caller env) Hst) as (H1 & H2 & H3).
    unfold Points.POINTS.PROPOSAL_CREATION.
    repeat split; simpl.
    + intros b [Hb| ->]%push_new_elem; auto.
    + intros _. lia.
    + intros [Hb|Hb]%push_new_elem; [|discriminate].
      specialize (H3 Hb). lia.
  - unfold Points.submitReview.
    destruct (Points.Proposals st !! proposal_id); [|assumption].
    destruct (_ || _); [assumption|].
    split; [assumption|]. simpl. apply map_Forall_insert_2; [|assumption].
    destruct (earned_profile st (caller env) Hst) as (H1 & H2 & H3).
    destruct (Points.Badges st !! "review_master") as [b|] eqn:Eb.
    + rewrite (review_master_threshold st b Hc Eb).
      destruct (N.leb_spec 200
        (Points.Researcher.total_points (Points.profile st (caller env))
         + Points.POINTS.REVIEW_BASE * score
           * Points.POINTS.REVIEW_QUALITY_MULTIPLIER)) as [Hle|Hlt].
      * repeat split; simpl.
        -- intros x [Hx| ->]%push_new_elem; auto.
        -- intros [Hx|Hx]%push_new_elem; [|discriminate].
           specialize (H2 Hx). lia.
        -- intros _. exact Hle.
      * repeat split; simpl; auto.
        -- intros Hx. specialize (H2 Hx). lia.
        -- intros Hx. specialize (H3 Hx). lia.
    + repeat split; simpl; auto.
      * intros Hx. specialize (H2 Hx). lia.
      * intros Hx. specialize (H3 Hx). lia.
  - unfold Points.getResearcherProfile.
    by destruct (Points.Researchers st !! principal).
Qed.

Lemma exec_profile_grows env c st k r :
  Points.Researchers st !! k = Some r ->
  exists r',
    Points.Researchers (Points.exec env c st) !! k = Some r'
    /\ Points.Researcher.total_points r <= Points.Researcher.total_points r'
    /\ (forall b, b ∈ Points.Researcher.badges r ->
                  b ∈ Points.Researcher.badges r').
Proof.
  intros Hk.
  assert (Hsame : exists r',
             Points.Researchers st !! k = Some r'
             /\ Points.Researcher.total_points r
                <= Points.Researcher.total_points r'
             /\ (forall b, b ∈ Points.Researcher.badges r ->
                           b ∈ Points.Researcher.badges r'))
    by (exists r; repeat split; [assumption|lia|auto]).
  destruct c; simpl; try assumption.
  - unfold Points.createProposal. destruct (_ || _); [assumption|]. simpl.
    destruct (decide (caller env = k)) as [<-|Hne].
    + rewrite lookup_insert_eq. eexists. split; [reflexivity|].
      unfold Points.profile. rewrite Hk. simpl. split; [lia|].
      intros b Hb. apply push_new_elem. auto.
    + by rewrite lookup_insert_ne.
  - unfold Points.submitReview.
    destruct (Points.Proposals st !! proposal_id); [|assumption].
    destruct (_ || _); [assumption|]. simpl.
    destruct (decide (caller env = k)) as [<-|Hne].
    + rewrite lookup_insert_eq. eexists. split; [reflexivity|].
      unfold Points.profile. rewrite Hk. simpl. split; [lia|].
      intros b Hb. destruct (Points.Badges st !! "review_master"); [|done].
      destruct (_ <=? _); [|done]. apply push_new_elem. auto.
    + by rewrite lookup_insert_ne.
  - unfold Points.getResearcherProfile.
    by destruct (Points.Researchers st !! principal).
Qed.

(** ** Reachable states *)

Lemma empty_keys_valid : keys_valid Core.empty.
Proof.
  repeat split; intros k [x Hx]; simpl in Hx;
    rewrite lookup_empty in Hx; discriminate.
Qed.

Lemma reachable_keys_valid v st : Core.reachable v st -> keys_valid st.
Proof.
  induction 1 as [|env c st Hu _ IH];
    [apply empty_keys_valid|by apply exec_keys_valid].
Qed.

Lemma reachable_refs_ok v st : Core.reachable v st -> refs_ok st.
Proof.
  induction 1 as [|env c st _ _ IH]; [|by apply exec_refs_ok].
  split; apply map_Forall_empty.
Qed.

Lemma reachable_unverified v st : Core.reachable v st -> unverified st.
Proof.
  induction 1 as [|env c st _ _ IH]; [|by apply exec_unverified].
  split; apply map_Forall_empty.
Qed.

Lemma reachable_points_unverified st :
  Points.reachable st -> points_unverified st.
Proof.
  induction 1 as [|env c st _ _ IH]; [|by apply exec_points_unverified].
  apply map_Forall_empty.
Qed.

Lemma reachable_badges_earned st : Points.reachable st -> badges_earned st.
Proof.
  induction 1 as [|env c st _ _ IH]; [|by apply exec_badges_earned].
  split; [|apply map_Forall_empty].
  intros k b Hk. simpl in Hk. rewrite lookup_empty in Hk. discriminate.
Qed.

Lemma reachable_lifecycle_ok v st : Core.reachable v st -> lifecycle_ok st.
Proof.
  induction 1 as [|env c st _ _ IH]; [|by apply exec_lifecycle_ok].
  split; apply map_Forall_empty.
Qed.

Lemma reachable_passes_milestone v st mid :
  Core.reachable v st -> is_Some (Core.milestones st !! mid) -> passes v mid.
Proof.
  intros Hr Hm. destruct v; [|exact I].
  destruct (reachable_keys_valid _ _ Hr) as (_ & _ & H & _). by apply H.
Qed.


Lemma try_id_passes {A} v id
    (body : Core.State -> Core.Completion A * Core.State) st :
  passes v id -> Core.try_id v id body st = Core.finish v st (body st).
Proof. unfold Core.try_id. destruct v; simpl; [intros ->|]; reflexivity. Qed.

Lemma demo_reachable v : Core.reachable v (Demo.reviewed v).
Proof. repeat (apply Core.reachable_exec; [reflexivity|]). constructor. Qed.

Lemma demo_points_reachable : Points.reachable Demo.scored.
Proof. repeat (apply Points.reachable_exec; [reflexivity|]). constructor. Qed.

(** ** The properties of the specification *)

(** C4. Referential integrity holds in every state the canister can reach:
    every milestone identifier in a proposal's [milestones], every review
    identifier in its [reviews] and every proof identifier in a milestone's
    [proofs] is a key of the map of that kind. *)
Theorem referential_integrity v st :
  Core.reachable v st ->
  (forall pid p mid,
      Core.proposals st !! pid = Some p ->
      mid ∈ ResearchProposal.milestones p ->
      is_Some (Core.milestones st !! mid))
  /\ (forall pid p rid,
         Core.proposals st !! pid = Some p ->
         rid ∈ ResearchProposal.reviews p ->
         is_Some (Core.reviews st !! rid))
  /\ (forall mid m xid,
         Core.milestones st !! mid = Some m ->
         xid ∈ Milestone.proofs m ->
         is_Some (Core.proofs st !! xid)).
Proof.
  intros [Hp Hm]%reachable_refs_ok. repeat split.
  - intros pid p mid Hpid Hin. destruct (Hp _ _ Hpid) as [H _].
    rewrite Forall_forall in H. auto.
  - intros pid p rid Hpid Hin. destruct (Hp _ _ Hpid) as [_ H].
    rewrite Forall_forall in H. auto.
  - intros mid m xid Hmid Hin. pose proof (Hm _ _ Hmid) as H. simpl in H.
    rewrite Forall_forall in H. auto.
Qed.

Lemma referential_integrity_witness :
  is_Some (Core.milestones (Demo.reviewed Core.Plain) !! Demo.id3)
  /\ is_Some (Core.reviews (Demo.reviewed Core.Plain) !! Demo.id5)
  /\ is_Some (Core.proofs (Demo.reviewed Core.Plain) !! Demo.id4).
Proof.
  destruct (referential_integrity Core.Plain (Demo.reviewed Core.Plain)
              (demo_reachable Core.Plain)) as (H1 & H2 & H3).
  split; [|split].
  - eapply (H1 Demo.id2); [vm_compute; reflexivity|].
    vm_compute. apply list_elem_of_here.
  - eapply (H2 Demo.id2); [vm_compute; reflexivity|].
    vm_compute. apply list_elem_of_here.
  - eapply (H3 Demo.id3); [vm_compute; reflexivity|].
    vm_compute. apply list_elem_of_here.
Defined.

(** C10. No call ever sets a review's [verified] flag or moves a proof to
    [verified]: in every reachable state of the canister, and of the points
    variant, every stored review has [verified = false] and every stored
    proof has status [pending]. *)
Theorem nothing_gets_verified v st pst :
  Core.reachable v st ->
  Points.reachable pst ->
  (forall rid r, Core.reviews st !! rid = Some r -> Review.verified r = false)
  /\ (forall xid x, Core.proofs st !! xid = Some x ->
                    ProofOfReproduction.status x = "pending")
  /\ (forall rid r, Points.Reviews pst !! rid = Some r ->
                    Points.Review.verified r = false).
Proof.
  intros [Hr Hp]%reachable_unverified Hq%reachable_points_unverified.
  repeat split.
  - intros rid r. apply Hr.
  - intros xid x. apply Hp.
  - intros rid r. apply Hq.
Qed.

Lemma nothing_gets_verified_witness :
  (forall rid r, Core.reviews (Demo.reviewed Core.Plain) !! rid = Some r ->
                 Review.verified r = false)
  /\ (forall xid x, Core.proofs (Demo.reviewed Core.Plain) !! xid = Some x ->
                    ProofOfReproduction.status x = "pending")
  /\ (forall rid r, Points.Reviews Demo.scored !! rid = Some r ->
                    Points.Review.verified r = false).
Proof.
  apply (nothing_gets_verified Core.Plain (Demo.reviewed Core.Plain)
           Demo.scored).
  - repeat (apply Core.reachable_exec; [reflexivity|]). constructor.
  - repeat (apply Points.reachable_exec; [reflexivity|]). constructor.
Defined.

(** C7, on the code.  A milestone is completed by [verifyMilestone] and by
    nothing else: a call other than [verifyMilestone] on that milestone never
    takes its status to [completed], and leaves the status as it is when the
    identifier drawn in the call is a new one.  [submitProof] on a stored
    milestone stores a proof whose status is [pending] and touches no other
    researcher, proposal or review.  In the second copy it answers with that
    proof, appends its identifier to the milestone's [proofs] and leaves the
    milestone's other fields, the status among them, as they were.  In the
    first copy the proof is stored, the read of [milestoneOpt.Some] gives
    [undefined], and the call answers [Err] with an [Error] message: the
    identifier is not appended, the milestone is left as it was. *)
Theorem milestone_completed_only_by_verify v env st mid m :
  Core.reachable v st ->
  Core.milestones st !! mid = Some m ->
  (forall h r,
      let proof := ProofOfReproduction.mk (uuid env) h r "pending" in
      let answered := (Core.submitProof v env mid h r st).1 in
      let st' := (Core.submitProof v env mid h r st).2 in
      Core.proofs st' = <[uuid env := proof]> (Core.proofs st)
      /\ Core.researchers st' = Core.researchers st
      /\ Core.proposals st' = Core.proposals st
      /\ Core.reviews st' = Core.reviews st
      /\ match v with
         | Core.Plain =>
             answered = Ok proof
             /\ Core.milestones st'
                = <[mid := Milestone.mk (Milestone.id m)
                             (Milestone.description m)
                             (Milestone.required_funding m)
                             (Milestone.deadline m) (Milestone.status m)
                             (Milestone.proofs m ++ [uuid env])]>
                    (Core.milestones st)
         | Core.Guarded =>
             (exists text, answered = Err (Error ("Error occured " +:+ text)))
             /\ Core.milestones st' = Core.milestones st
         end)
  /\ (forall c,
         (forall pid, c <> Core.VerifyMilestone pid mid) ->
         exists m',
           Core.milestones (Core.exec v env c st) !! mid = Some m'
           /\ (Milestone.status m' = "completed" ->
               Milestone.status m = "completed")
           /\ (Core.milestones st !! uuid env = None ->
               Milestone.status m' = Milestone.status m)).
Proof.
  intros Hr Hm. split.
  - intros h r. simpl.
    assert (Hv : passes v mid)
      by (eapply reachable_passes_milestone; eauto).
    unfold Core.submitProof. rewrite try_id_passes by done. rewrite Hm.
    destruct v; simpl.
    + repeat split; eauto.
    + destruct m. repeat split.
  - intros c Hc.
    assert (Hsame : exists m',
               Core.milestones st !! mid = Some m'
               /\ (Milestone.status m' = "completed" ->
                   Milestone.status m = "completed")
               /\ (Core.milestones st !! uuid env = None ->
                   Milestone.status m' = Milestone.status m))
      by (exists m; auto).
    destruct c; simpl; handlers; branches; try assumption;
      match goal with
      | |- context [<[?i := ?x]> _ !! mid] =>
          destruct (decide (i = mid)) as [->|Hne];
          [rewrite lookup_insert_eq|by rewrite lookup_insert_ne]
      end;
      try (exfalso; eapply Hc; reflexivity);
      eexists; (split; [reflexivity|]); simpl;
      try (split; [discriminate|congruence]);
      split; congruence.
Qed.

Lemma milestone_completed_only_by_verify_witness :
  (exists text,
      (Core.submitProof Core.Guarded (Demo.alice Demo.id4) Demo.id3
         "0xabc" "0xdef" (Demo.planned Core.Guarded)).1
      = Err (Error ("Error occured " +:+ text)))
  /\ Core.milestones
       (Core.submitProof Core.Guarded (Demo.alice Demo.id4) Demo.id3
          "0xabc" "0xdef" (Demo.planned Core.Guarded)).2
     = Core.milestones (Demo.planned Core.Guarded).
Proof.
  destruct (milestone_completed_only_by_verify Core.Guarded
              (Demo.alice Demo.id4) (Demo.planned Core.Guarded) Demo.id3
              (Milestone.mk Demo.id3 "Prototype" 500 "2025-01-01" "pending" []))
    as [H _].
  - repeat (apply Core.reachable_exec; [reflexivity|]). constructor.
  - vm_compute. reflexivity.
  - destruct (H "0xabc" "0xdef") as (_ & _ & _ & _ & E). exact E.
Defined.

(** C6. In the points variant, [submitReview] on a stored proposal with a
    score from 1 to 10 and a stake of at least 100 answers with a review whose
    [points_earned] is [REVIEW_BASE * score * REVIEW_QUALITY_MULTIPLIER], that
    is 20 times the score (20 at score 1, 180 at score 9, 200 at score 10),
    stores the review, and stores for the caller a profile whose
    [total_points] are those of the profile stored before plus that amount,
    and that amount alone when no profile was stored. *)
Theorem review_points env pid score comments stake st p :
  Points.Proposals st !! pid = Some p ->
  1 <= score <= 10 ->
  100 <= stake ->
  exists review st',
    Points.submitReview env pid score comments stake st = (Ok review, st')
    /\ Points.Review.points_earned review
       = Points.POINTS.REVIEW_BASE * score
         * Points.POINTS.REVIEW_QUALITY_MULTIPLIER
    /\ Points.Review.points_earned review = 20 * score
    /\ (score = 1 -> Points.Review.points_earned review = 20)
    /\ (score = 9 -> Points.Review.points_earned review = 180)
    /\ (score = 10 -> Points.Review.points_earned review = 200)
    /\ Points.Reviews st' !! uuid env = Some review
    /\ exists r',
         Points.Researchers st' !! caller env = Some r'
         /\ Points.Researcher.total_points r'
            = match Points.Researchers st !! caller env with
              | Some r =>
                  Points.Researcher.total_points r
                  + Points.Review.points_earned review
              | None => Points.Review.points_earned review
              end.
Proof.
  intros Hp [Hlo Hhi] Hstake. unfold Points.submitReview. rewrite Hp.
  assert ((score <? 1) || (10 <? score) || (stake <? 100) = false) as ->.
  { rewrite !orb_false_iff, !N.ltb_ge. auto. }
  eexists. eexists. split; [reflexivity|]. simpl.
  unfold Points.POINTS.REVIEW_BASE, Points.POINTS.REVIEW_QUALITY_MULTIPLIER.
  repeat split; try lia.
  - by rewrite lookup_insert_eq.
  - eexists. rewrite lookup_insert_eq. split; [reflexivity|]. simpl.
    unfold Points.profile.
    destruct (Points.Researchers st !! caller env); simpl; lia.
Qed.

Lemma review_points_witness :
  exists review st' r',
    Points.submitReview (Demo.alice Demo.id3) Demo.id2 9 "Clear method" 1000
      Demo.created = (Ok review, st')
    /\ Points.Review.points_earned review = 180
    /\ Points.Researchers Demo.created !! "alice"
       = Some (Points.Researcher.mk "alice" 0 20 ["research_starter"]
                 [Demo.id2] [])
    /\ Points.Researchers st' !! "alice" = Some r'
    /\ Points.Researcher.total_points r' = 200.
Proof.
  destruct (review_points (Demo.alice Demo.id3) Demo.id2 9 "Clear method" 1000
              Demo.created
              (Points.ResearchProposal.mk Demo.id2 "alice" "Quantum codes"
                 "Error correction" "Topological codes" [] 1000 0 "draft" []
                 "2024-05-01" []))
    as (review & st' & E & _ & _ & _ & H9 & _ & _ & r' & Hr' & Ht).
  - vm_compute. reflexivity.
  - lia.
  - lia.
  - exists review, st', r'. split; [exact E|].
    split; [by apply H9|].
    split; [vm_compute; reflexivity|].
    split; [exact Hr'|].
    rewrite Ht, (H9 eq_refl). vm_compute. reflexivity.
Defined.

Lemma profile_held st k b :
  b ∈ Points.Researcher.badges (Points.profile st k) ->
  exists r, Points.Researchers st !! k = Some r
            /\ b ∈ Points.Researcher.badges r.
Proof.
  unfold Points.profile.
  destruct (Points.Researchers st !! k) as [r|]; [eauto|].
  intros H. by apply elem_of_nil in H.
Qed.

(** C3, amended.  In every reachable state of the points variant, a badge of
    the catalog that a profile holds has its threshold reached by the
    profile's [total_points]; a call never lowers the [total_points] of a
    profile nor takes a badge away from it.  Reaching a threshold does not by
    itself grant the badge: a badge that a principal holds after a call and
    did not hold before is [research_starter], granted to the caller of
    [createProposal], or [review_master], granted to the caller of
    [submitReview] while the badge map holds [review_master]; no profile
    holds [funding_champion]. *)
Theorem badges_are_earned_and_kept st :
  Points.reachable st ->
  (forall k r b,
      Points.Researchers st !! k = Some r ->
      b ∈ Points.DEFAULT_BADGES ->
      Points.Badge.id b ∈ Points.Researcher.badges r ->
      Points.Badge.points_threshold b <= Points.Researcher.total_points r)
  /\ (forall env c k r,
         Points.Researchers st !! k = Some r ->
         exists r',
           Points.Researchers (Points.exec env c st) !! k = Some r'
           /\ Points.Researcher.total_points r
              <= Points.Researcher.total_points r'
           /\ (forall b, b ∈ Points.Researcher.badges r ->
                         b ∈ Points.Researcher.badges r'))
  /\ (forall env c k r' b,
         Points.Researchers (Points.exec env c st) !! k = Some r' ->
         b ∈ Points.Researcher.badges r' ->
         (forall r, Points.Researchers st !! k = Some r ->
                    b ∉ Points.Researcher.badges r) ->
         caller env = k
         /\ (b = "research_starter"
             /\ (exists title description methodology funding_target,
                    c = Points.CreateProposal title description methodology
                          funding_target)
             \/ b = "review_master"
                /\ (exists proposal_id score comments stake_amount,
                       c = Points.SubmitReview proposal_id score comments
                             stake_amount)
                /\ is_Some (Points.Badges st !! "review_master")))
  /\ (forall k r,
         Points.Researchers st !! k = Some r ->
         "funding_champion" ∉ Points.Researcher.badges r).
Proof.
  intros [_ Hall]%reachable_badges_earned. split; [|split; [|split]].
  - intros k r b Hk Hb Hin. destruct (Hall _ _ Hk) as (H1 & H2 & H3).
    unfold Points.DEFAULT_BADGES in Hb.
    rewrite !elem_of_cons in Hb.
    destruct Hb as [->|[->|[->|Hb]]]; simpl in *; auto.
    + destruct (H1 _ Hin); discriminate.
    + by apply elem_of_nil in Hb.
  - intros env c k r Hk. by apply exec_profile_grows.
  - intros env c k r' b Hk' Hin Hout. revert Hk'.
    assert (Hold : Points.Researchers st !! k = Some r' ->
                   caller env = k
                   /\ (b = "research_starter"
                       /\ (exists title description methodology
                                  funding_target,
                              c = Points.CreateProposal title description
                                    methodology funding_target)
                       \/ b = "review_master"
                          /\ (exists proposal_id score comments stake_amount,
                                 c = Points.SubmitReview proposal_id score
                                       comments stake_amount)
                          /\ is_Some (Points.Badges st !! "review_master")))
      by (intros Hk; exfalso; exact (Hout r' Hk Hin)).
    assert (Hprofile :
              b ∈ Points.Researcher.badges (Points.profile st k) -> False).
    { intros (r & Hr & Hb)%profile_held. exact (Hout r Hr Hb). }
    destruct c as [|t d m f|p s x a|q|]; cbn [Points.exec];
      try exact Hold.
    + unfold Points.createProposal.
      destruct (_ || _); [exact Hold|]. simpl.
      destruct (decide (caller env = k)) as [Hk|Hne];
        [|by rewrite lookup_insert_ne].
      rewrite Hk, lookup_insert_eq. intros [= <-]. simpl in Hin.
      apply push_new_elem in Hin as [Hin| ->]; [by apply Hprofile in Hin|].
      split; [reflexivity|]. left. split; [reflexivity|]. eauto.
    + unfold Points.submitReview.
      destruct (Points.Proposals st !! p); [|exact Hold].
      destruct (_ || _); [exact Hold|]. simpl.
      destruct (decide (caller env = k)) as [Hk|Hne];
        [|by rewrite lookup_insert_ne].
      rewrite Hk, lookup_insert_eq. intros [= <-]. simpl in Hin.
      destruct (Points.Badges st !! "review_master") as [badge|] eqn:Eb;
        [|by apply Hprofile in Hin].
      destruct (_ <=? _); [|by apply Hprofile in Hin].
      apply push_new_elem in Hin as [Hin| ->]; [by apply Hprofile in Hin|].
      split; [reflexivity|]. right. split; [reflexivity|]. split; eauto.
    + unfold Points.getResearcherProfile.
      by destruct (Points.Researchers st !! q).
  - intros k r Hk Hin. destruct (Hall _ _ Hk) as (H1 & _).
    destruct (H1 _ Hin); discriminate.
Qed.

Lemma badges_are_earned_and_kept_witness :
  20 <= Points.Researcher.total_points
          (Points.Researcher.mk "alice" 0 20 ["research_starter"] [Demo.id2] [])
  /\ "funding_champion"
     ∉ Points.Researcher.badges
         (Points.Researcher.mk "bob" 0 20 [] [Demo.id3] []).
Proof.
  destruct (badges_are_earned_and_kept Demo.scored) as (H1 & _ & _ & H4).
  - repeat (apply Points.reachable_exec; [reflexivity|]). constructor.
  - split.
    + apply (H1 "alice" _
               (Points.Badge.mk "research_starter" "Research Starter"
                  "Created first research proposal" 20)).
      * vm_compute. reflexivity.
      * apply list_elem_of_here.
      * apply list_elem_of_here.
    + apply (H4 "bob"). vm_compute. reflexivity.
Defined.

(** C3 as stated fails.  After the badges are seeded, alice creates a
    proposal and bob reviews it with score 1: bob's profile has 20 points,
    the threshold of [research_starter], and holds no badge. *)
Lemma badge_iff_threshold_fails :
  Points.reachable Demo.scored
  /\ Points.Researchers Demo.scored !! "bob"
     = Some (Points.Researcher.mk "bob" 0 20 [] [Demo.id3] [])
  /\ ~ badge_iff_threshold Demo.scored.
Proof.
  split; [exact demo_points_reachable|].
  split; [vm_compute; reflexivity|].
  intros H.
  specialize (H "bob" (Points.Researcher.mk "bob" 0 20 [] [Demo.id3] [])
                (Points.Badge.mk "research_starter" "Research Starter"
                   "Created first research proposal" 20)).
  destruct H as [_ H].
  - vm_compute. reflexivity.
  - apply list_elem_of_here.
  - simpl in H. eapply not_elem_of_nil. apply H. lia.
Qed.

(** C2, on the code.  In the second copy [verifyMilestone] succeeds exactly
    when the proposal identifier and the milestone identifier both name
    stored records and the milestone's status is [pending], whatever its list
    of proofs; it then stores and returns the milestone with status
    [completed] and nothing else changed, and a second call with the same
    identifiers answers [InvalidPayload]; when both records are there and the
    status is not [pending] the answer is [InvalidPayload].  In either copy,
    when a record is missing and the milestone identifier passes the
    identifier check, the answer is [NotFound] with the one combined
    message.  In the first copy, when both records are stored, the read of
    [milestoneOpt.Some] gives [undefined] and the call answers [Err] with an
    [Error] message, whatever the status: the first copy never succeeds.
    A call that does not succeed leaves the state as it was. *)
Theorem verifyMilestone_outcomes v st pid mid :
  passes v mid ->
  (Core.proposals st !! pid = None \/ Core.milestones st !! mid = None ->
   Core.verifyMilestone v pid mid st
   = (Err (NotFound "Proposal or Milestone not found."), st))
  /\ (forall p m,
         Core.proposals st !! pid = Some p ->
         Core.milestones st !! mid = Some m ->
         match v with
         | Core.Plain =>
             (Milestone.status m <> "pending" ->
              Core.verifyMilestone v pid mid st
              = (Err (InvalidPayload "Milestone is not in a pending state."),
                 st))
             /\ (Milestone.status m = "pending" ->
                 let m' :=
                   Milestone.mk (Milestone.id m) (Milestone.description m)
                     (Milestone.required_funding m) (Milestone.deadline m)
                     "completed" (Milestone.proofs m) in
                 exists st',
                   Core.verifyMilestone v pid mid st = (Ok m', st')
                   /\ Core.milestones st'
                      = <[mid := m']> (Core.milestones st)
                   /\ Core.researchers st' = Core.researchers st
                   /\ Core.proposals st' = Core.proposals st
                   /\ Core.reviews st' = Core.reviews st
                   /\ Core.proofs st' = Core.proofs st
                   /\ Core.verifyMilestone v pid mid st'
                      = (Err (InvalidPayload
                                "Milestone is not in a pending state."), st'))
         | Core.Guarded =>
             exists text,
               Core.verifyMilestone v pid mid st
               = (Err (Error ("Error occured " +:+ text)), st)
         end)
  /\ match v with
     | Core.Plain =>
         (exists m', (Core.verifyMilestone v pid mid st).1 = Ok m')
         <-> (exists p m,
                 Core.proposals st !! pid = Some p
                 /\ Core.milestones st !! mid = Some m
                 /\ Milestone.status m = "pending")
     | Core.Guarded =>
         forall m', (Core.verifyMilestone v pid mid st).1 <> Ok m'
     end.
Proof.
  intros Hv.
  assert (Hnone :
            Core.proposals st !! pid = None \/ Core.milestones st !! mid = None ->
            Core.verifyMilestone v pid mid st
            = (Err (NotFound "Proposal or Milestone not found."), st)).
  { intros H. unfold Core.verifyMilestone. rewrite try_id_passes by done.
    destruct H as [-> | ->]; [by destruct v|].
    destruct (Core.proposals st !! pid); by destruct v. }
  assert (Hbad : forall st0 p m,
             Core.proposals st0 !! pid = Some p ->
             Core.milestones st0 !! mid = Some m ->
             Milestone.status m <> "pending" ->
             Core.verifyMilestone Core.Plain pid mid st0
             = (Err (InvalidPayload "Milestone is not in a pending state."),
                st0)).
  { intros st0 p m Hp Hm Hs. unfold Core.verifyMilestone, Core.try_id. simpl.
    rewrite Hp, Hm. simpl.
    destruct (String.eqb_spec (Milestone.status m) "pending"); [done|].
    reflexivity. }
  assert (Hok : forall p m,
             Core.proposals st !! pid = Some p ->
             Core.milestones st !! mid = Some m ->
             Milestone.status m = "pending" ->
             Core.verifyMilestone Core.Plain pid mid st
             = (Ok (Milestone.mk (Milestone.id m) (Milestone.description m)
                      (Milestone.required_funding m) (Milestone.deadline m)
                      "completed" (Milestone.proofs m)),
                Core.set_milestones st
                  (<[mid := Milestone.mk (Milestone.id m)
                              (Milestone.description m)
                              (Milestone.required_funding m)
                              (Milestone.deadline m)
                              "completed" (Milestone.proofs m)]>
                     (Core.milestones st)))).
  { intros p m Hp Hm Hs. unfold Core.verifyMilestone, Core.try_id. simpl.
    rewrite Hp, Hm. simpl. rewrite Hs. by destruct m. }
  assert (Hthrow : forall p m,
             Core.proposals st !! pid = Some p ->
             Core.milestones st !! mid = Some m ->
             exists text,
               Core.verifyMilestone Core.Guarded pid mid st
               = (Err (Error ("Error occured " +:+ text)), st)).
  { intros p m Hp Hm. unfold Core.verifyMilestone, Core.try_id.
    destruct (Core.idPayloadValid mid); simpl; [eauto|].
    rewrite Hp, Hm. simpl. eauto. }
  split; [exact Hnone|]. split.
  - intros p m Hp Hm. destruct v; [by apply (Hthrow p m)|]. split.
    + by apply (Hbad st p m).
    + intros Hs. simpl. eexists. split; [by apply (Hok p m)|].
      simpl. repeat split.
      apply (Hbad _ p (Milestone.mk (Milestone.id m) (Milestone.description m)
                         (Milestone.required_funding m) (Milestone.deadline m)
                         "completed" (Milestone.proofs m))); simpl.
      * exact Hp.
      * by rewrite lookup_insert_eq.
      * discriminate.
  - destruct v.
    + intros m' Hm'.
      destruct (Core.proposals st !! pid) as [p|] eqn:Hp;
        [|rewrite Hnone in Hm' by auto; discriminate].
      destruct (Core.milestones st !! mid) as [m|] eqn:Hm;
        [|rewrite Hnone in Hm' by auto; discriminate].
      destruct (Hthrow p m eq_refl eq_refl) as [text E].
      rewrite E in Hm'. discriminate.
    + split.
      * intros [m' Hm'].
        destruct (Core.proposals st !! pid) as [p|] eqn:Hp;
          [|rewrite Hnone in Hm' by auto; discriminate].
        destruct (Core.milestones st !! mid) as [m|] eqn:Hm;
          [|rewrite Hnone in Hm' by auto; discriminate].
        destruct (String.eqb_spec (Milestone.status m) "pending") as [Hs|Hs].
        -- eauto.
        -- rewrite (Hbad st p m) in Hm' by done. discriminate.
      * intros (p & m & Hp & Hm & Hs). rewrite (Hok p m) by done. eauto.
Qed.

Lemma verifyMilestone_outcomes_witness :
  Core.proposals (Demo.planned Core.Guarded) !! Demo.id2
  = Some (ResearchProposal.mk Demo.id2 Demo.id1 "Quantum codes"
            "Error correction" "Topological codes" [] 1000 0 "draft" []
            "2024-05-01")
  /\ Core.milestones (Demo.planned Core.Guarded) !! Demo.id3
     = Some (Milestone.mk Demo.id3 "Prototype" 500 "2025-01-01" "pending" [])
  /\ exists text,
       Core.verifyMilestone Core.Guarded Demo.id2 Demo.id3
         (Demo.planned Core.Guarded)
       = (Err (Error ("Error occured " +:+ text)), Demo.planned Core.Guarded).
Proof.
  split; [vm_compute; reflexivity|]. split; [vm_compute; reflexivity|].
  destruct (verifyMilestone_outcomes Core.Guarded (Demo.planned Core.Guarded)
              Demo.id2 Demo.id3) as (_ & H & _).
  - vm_compute. reflexivity.
  - apply (H (ResearchProposal.mk Demo.id2 Demo.id1 "Quantum codes"
                "Error correction" "Topological codes" [] 1000 0 "draft" []
                "2024-05-01")
             (Milestone.mk Demo.id3 "Prototype" 500 "2025-01-01" "pending" [])).
    + vm_compute. reflexivity.
    + vm_compute. reflexivity.
Defined.







Lemma find_none_values {V} (f : V -> bool) (m : gmap text V) :
  (forall k x, m !! k = Some x -> f x = false) ->
  List.find f (Core.values m) = None.
Proof.
  intros H. unfold Core.values.
  assert (Hall : forall x, x ∈ (map_to_list m).*2 -> f x = false).
  { intros x [[k y] [-> Hin]]%list_elem_of_fmap.
    apply elem_of_map_to_list in Hin. eauto. }
  induction ((map_to_list m).*2) as [|x l IH]; [reflexivity|]. simpl.
  rewrite (Hall x) by apply list_elem_of_here.
  apply IH. intros y Hy. apply Hall. by apply list_elem_of_further.
Qed.

Lemma falsy_length s : 1 <= Text.length s -> Text.falsy s = false.
Proof. destruct s; [unfold Text.length; simpl; lia|reflexivity]. Qed.

Lemma trimEnd_length s : Text.length (Text.trimEnd s) <= Text.length s.
Proof.
  unfold Text.length. induction s as [|c s IH]; simpl; [lia|].
  destruct (Text.trimEnd s); [destruct (Text.is_space c)|]; simpl in *; lia.
Qed.

Lemma trimStart_length s : Text.length (Text.trimStart s) <= Text.length s.
Proof.
  unfold Text.length. induction s as [|c s IH]; simpl; [lia|].
  destruct (Text.is_space c); simpl; lia.
Qed.

Lemma trim_length s : Text.length (Text.trim s) <= Text.length s.
Proof.
  unfold Text.trim. etransitivity; [apply trimEnd_length|].
  apply trimStart_length.
Qed.

(** C9, amended.  [createResearcher] accepts a phone only when it is made of
    10 to 15 digits and of nothing else: for a payload whose other fields pass
    their checks and whose email and phone are those of no stored researcher,
    such a phone makes the call succeed, and the stored phone is the phone as
    it was given, so that it consists of digits only; any other phone, also
    one that holds 10 to 15 digits between separators, makes the call answer
    [InvalidPayload] and leave the state as it was. *)
Theorem createResearcher_phone env name address email phone st :
  2 <= Text.length (Text.trim name) ->
  5 <= Text.length (Text.trim address) ->
  Text.emailRegex_test email = true ->
  (forall k r, Core.researchers st !! k = Some r ->
               Researcher.email r <> email /\ Researcher.phone r <> phone) ->
  (Text.phoneRegex_test phone = true ->
   exists r,
     Core.createResearcher env name address email phone st
     = (Ok r, Core.set_researchers st (<[uuid env := r]> (Core.researchers st)))
     /\ Researcher.phone r = phone
     /\ Text.all Text.is_digit (Researcher.phone r) = true
     /\ 10 <= Text.length (Researcher.phone r) <= 15
     /\ Researcher.email r = Text.toLowerCase (Text.trim email))
  /\ (Text.phoneRegex_test phone = false ->
      Core.createResearcher env name address email phone st
      = (Err (InvalidPayload "Phone number must be 10-15 digits."), st)).
Proof.
  intros Hname Haddr Hemail Hnew.
  assert (Text.falsy name || (Text.length (Text.trim name) <? 2) = false)
    as E1.
  { rewrite falsy_length by (pose proof (trim_length name); lia).
    simpl. apply N.ltb_ge. exact Hname. }
  assert (Text.falsy address || (Text.length (Text.trim address) <? 5) = false)
    as E2.
  { rewrite falsy_length by (pose proof (trim_length address); lia).
    simpl. apply N.ltb_ge. exact Haddr. }
  assert (Text.falsy email || negb (Text.emailRegex_test email) = false) as E3.
  { rewrite Hemail. destruct email; [discriminate|reflexivity]. }
  unfold Core.createResearcher. rewrite E1, E2, E3. split.
  - intros Hphone. rewrite Hphone.
    pose proof Hphone as Hp. unfold Text.phoneRegex_test in Hp.
    apply andb_true_iff in Hp as [[Hd Hlo]%andb_true_iff Hhi].
    apply N.leb_le in Hlo, Hhi.
    rewrite falsy_length by lia. simpl.
    rewrite find_none_values.
    + rewrite (strip_digits phone Hd). eexists. split; [reflexivity|].
      simpl. auto.
    + intros k r Hk. destruct (Hnew k r Hk) as [He Hp].
      apply orb_false_iff. split; by apply String.eqb_neq.
  - intros ->. by rewrite orb_true_r.
Qed.

Lemma createResearcher_phone_witness :
  exists r,
    Core.createResearcher (Demo.alice Demo.id1) "Jane Smith" "123 Research Ave"
      "jane.smith@research.org" "1234567890" Core.empty
    = (Ok r,
       Core.set_researchers Core.empty
         (<[Demo.id1 := r]> (Core.researchers Core.empty)))
    /\ Researcher.phone r = "1234567890".
Proof.
  destruct (createResearcher_phone (Demo.alice Demo.id1) "Jane Smith"
              "123 Research Ave" "jane.smith@research.org" "1234567890"
              Core.empty) as [H _].
  - vm_compute. discriminate.
  - vm_compute. discriminate.
  - vm_compute. reflexivity.
  - intros k r Hk. simpl in Hk. rewrite lookup_empty in Hk. discriminate.
  - destruct H as (r & E & Hp & _); [vm_compute; reflexivity|].
    exists r. split; [exact E|exact Hp].
Defined.

(** C9 as stated fails: a phone with ten digits and two dashes is refused,
    though the rest of the payload is valid and the store is empty. *)
Lemma createResearcher_refuses_separators :
  Text.strip_non_digits "123-456-7890" = "1234567890"
  /\ Text.length (Text.strip_non_digits "123-456-7890") = 10
  /\ Core.createResearcher (Demo.alice Demo.id1) "Jane Smith"
       "123 Research Ave" "jane.smith@research.org" "123-456-7890" Core.empty
     = (Err (InvalidPayload "Phone number must be 10-15 digits."), Core.empty).
Proof. repeat split; vm_compute; reflexivity. Qed.

Lemma find_some_values {V} (f : V -> bool) (m : gmap text V) k x :
  m !! k = Some x -> f x = true -> is_Some (List.find f (Core.values m)).
Proof.
  intros Hk Hx. unfold Core.values.
  assert (Hin : x ∈ (map_to_list m).*2).
  { apply list_elem_of_fmap. exists (k, x). split; [reflexivity|].
    by apply elem_of_map_to_list. }
  induction ((map_to_list m).*2) as [|y l IH]; [by apply elem_of_nil in Hin|].
  simpl. destruct (f y) eqn:Hy; [eauto|].
  apply IH. apply elem_of_cons in Hin as [->|Hin]; [congruence|assumption].
Qed.

(** What the duplicate check of [createResearcher] does catch: a payload
    whose email or phone, as given, is the stored email or phone of a
    researcher. *)
Lemma createResearcher_duplicate env name address email phone st k r :
  2 <= Text.length (Text.trim name) ->
  5 <= Text.length (Text.trim address) ->
  Text.emailRegex_test email = true ->
  Text.phoneRegex_test phone = true ->
  Core.researchers st !! k = Some r ->
  Researcher.email r = email \/ Researcher.phone r = phone ->
  Core.createResearcher env name address email phone st
  = (Err (InvalidPayload
            "Researcher with this email or phone already exists."), st).
Proof.
  intros Hname Haddr Hemail Hphone Hk Hdup.
  unfold Core.createResearcher.
  rewrite (falsy_length name) by (pose proof (trim_length name); lia).
  rewrite (falsy_length address) by (pose proof (trim_length address); lia).
  rewrite (proj2 (N.ltb_ge _ _) Hname), (proj2 (N.ltb_ge _ _) Haddr).
  rewrite Hemail, Hphone. simpl.
  assert (Text.falsy email = false) as -> by (by destruct email).
  assert (Text.falsy phone = false) as -> by (by destruct phone).
  simpl.
  destruct (find_some_values
              (fun r => String.eqb (Researcher.email r) email
                        || String.eqb (Researcher.phone r) phone)
              (Core.researchers st) k r Hk) as [d ->]; [|reflexivity].
  apply orb_true_iff. destruct Hdup as [<-|<-]; [left|right];
    apply String.eqb_refl.
Qed.

(** C5, on the code.  The duplicate check compares the email as it was
    given with the stored emails, which are lower-cased: a second
    registration with the very same mixed-case email (and another phone) is
    accepted, and the store then holds two researchers under one email.
    The claim asks for [InvalidPayload] here. *)
Theorem duplicate_email_is_accepted :
  let first :=
    Core.createResearcher (Demo.alice Demo.id1) "Jane Smith"
      "123 Research Ave" "Jane.Smith@Research.org" "1234567890" Core.empty in
  let second :=
    Core.createResearcher (Demo.bob Demo.id2) "Jane Smith"
      "123 Research Ave" "Jane.Smith@Research.org" "1234567891" first.2 in
  exists r1 r2,
    first.1 = Ok r1
    /\ second.1 = Ok r2
    /\ Core.researchers second.2 !! Demo.id1 = Some r1
    /\ Core.researchers second.2 !! Demo.id2 = Some r2
    /\ Researcher.email r1 = "jane.smith@research.org"
    /\ Researcher.email r2 = "jane.smith@research.org"
    /\ Text.toLowerCase (Text.trim "Jane.Smith@Research.org")
       = Researcher.email r1.
Proof.
  simpl. eexists. eexists.
  split; [vm_compute; reflexivity|].
  split; [vm_compute; reflexivity|].
  repeat split; vm_compute; reflexivity.
Qed.

(** C8, on the code.  In the guarded copy an identifier that is empty or
    made of white space only is stopped before any lookup, but the answer is
    of kind [Error], with the message [Error occured undefined], because the
    value thrown by [idPayloadValid] is caught by the handler's own [catch];
    the claim asks for [InvalidPayload].  The proposal identifier of
    [verifyMilestone] is not checked at all, and the plain copy checks no
    identifier: there a blank identifier is looked up like any other. *)
Theorem blank_id_is_answered_with_Error env id st :
  blank id = true ->
  let oops := Error "Error occured undefined" in
  Core.getResearcherById Core.Guarded id st = (Err oops, st)
  /\ (forall t d m f,
         Core.createProposal Core.Guarded env id t d m f st = (Err oops, st))
  /\ Core.getProposalById Core.Guarded id st = (Err oops, st)
  /\ Core.getProposalsByResearcherId Core.Guarded id st = (Err oops, st)
  /\ (forall s c k,
         Core.submitReview Core.Guarded env id s c k st = (Err oops, st))
  /\ (forall a, Core.fundProposal Core.Guarded id a st = (Err oops, st))
  /\ (forall d r l,
         Core.createMilestone Core.Guarded env id d r l st = (Err oops, st))
  /\ (forall pid, Core.verifyMilestone Core.Guarded pid id st = (Err oops, st))
  /\ (forall h r,
         Core.submitProof Core.Guarded env id h r st = (Err oops, st))
  /\ (forall mid,
         Core.idPayloadValid mid = None ->
         Core.proposals st !! id = None ->
         Core.verifyMilestone Core.Guarded id mid st
         = (Err (NotFound "Proposal or Milestone not found."), st))
  /\ (Core.researchers st !! id = None ->
      Core.getResearcherById Core.Plain id st
      = (Err (NotFound ("Researcher with id=" +:+ id +:+ " not found.")), st))
  /\ (forall a,
         Core.proposals st !! id = None ->
         Core.fundProposal Core.Plain id a st
         = (Err (NotFound ("Proposal with id=" +:+ id +:+ " not found.")), st)).
Proof.
  intros Hb%idPayloadValid_blank. simpl.
  repeat split; intros; handlers; unfold Core.try_id;
    rewrite ?Hb; try reflexivity.
  - match goal with H : Core.idPayloadValid _ = None |- _ => rewrite H end.
    match goal with H : _ !! _ = None |- _ => by rewrite H end.
  - match goal with H : _ !! _ = None |- _ => by rewrite H end.
  - match goal with H : _ !! _ = None |- _ => by rewrite H end.
Qed.

Lemma blank_id_is_answered_with_Error_witness :
  Core.getResearcherById Core.Guarded " " Core.empty
  = (Err (Error "Error occured undefined"), Core.empty)
  /\ Core.verifyMilestone Core.Guarded Demo.id2 " " Core.empty
     = (Err (Error "Error occured undefined"), Core.empty).
Proof.
  destruct (blank_id_is_answered_with_Error (Demo.alice Demo.id1) " "
              Core.empty) as (H1 & _ & _ & _ & _ & _ & _ & H8 & _).
  - reflexivity.
  - split; [exact H1|exact (H8 Demo.id2)].
Defined.

(** ** Further properties of the handlers *)

(** *** Strings *)

Lemma trimStart_nonblank s :
  blank s = false ->
  exists c t, Text.trimStart s = String c t /\ Text.is_space c = false.
Proof.
  induction s as [|c s IH]; [discriminate|].
  unfold blank in *. simpl. destruct (Text.is_space c) eqn:Hc; simpl.
  - exact IH.
  - intros _. exists c, s. by split.
Qed.

Lemma trimEnd_idem s : Text.trimEnd (Text.trimEnd s) = Text.trimEnd s.
Proof.
  induction s as [|c s IH]; simpl; [reflexivity|].
  destruct (Text.trimEnd s) as [|d t] eqn:E.
  - destruct (Text.is_space c) eqn:Hc; simpl; [reflexivity|by rewrite Hc].
  - simpl in *. by rewrite IH.
Qed.

Lemma trim_idem s : Text.trim (Text.trim s) = Text.trim s.
Proof.
  unfold Text.trim at 2 3.
  destruct (blank s) eqn:Hb.
  - by rewrite (trimStart_blank _ Hb).
  - destruct (trimStart_nonblank _ Hb) as (c & t & -> & Hc).
    rewrite (trimEnd_head c t Hc). unfold Text.trim. simpl. rewrite Hc.
    rewrite <- (trimEnd_head c t Hc). apply trimEnd_idem.
Qed.

Lemma trimEnd_no_space s :
  Text.all (fun c => negb (Text.is_space c)) s = true -> Text.trimEnd s = s.
Proof.
  induction s as [|c s IH]; simpl; [reflexivity|].
  intros [Hc Hs]%andb_true_iff. rewrite (IH Hs).
  apply negb_true_iff in Hc. rewrite Hc. by destruct s.
Qed.

Lemma trim_no_space s :
  Text.all (fun c => negb (Text.is_space c)) s = true -> Text.trim s = s.
Proof.
  intros H. unfold Text.trim.
  assert (Text.trimStart s = s) as ->; [|by apply trimEnd_no_space].
  destruct s as [|c s]; [reflexivity|]. simpl in *.
  apply andb_true_iff in H as [Hc _]. apply negb_true_iff in Hc.
  by rewrite Hc.
Qed.

Lemma all_get f s :
  Text.all f s = true <->
  (forall k c, String.get k s = Some c -> f c = true).
Proof.
  induction s as [|a s IH]; simpl.
  - split; [intros _ k c; by destruct k|reflexivity].
  - rewrite andb_true_iff, IH. split.
    + intros [Ha Hs] [|k] c; [by intros [= <-]|apply Hs].
    + intros H. split; [apply (H 0%nat); reflexivity|].
      intros k c. apply (H (S k)).
Qed.

Lemma get_lt k s c : String.get k s = Some c -> (k < String.length s)%nat.
Proof.
  revert k. induction s as [|a s IH]; intros [|k]; simpl; try discriminate.
  - lia.
  - intros H%IH. lia.
Qed.

(** A string that the email expression accepts holds no white space, so
    [trim] leaves it as it is. *)
Lemma emailRegex_no_space s :
  Text.emailRegex_test s = true ->
  Text.all (fun c => negb (Text.is_space c)) s = true.
Proof.
  unfold Text.emailRegex_test.
  intros (i & _ & (j & _ & H)%existsb_exists)%existsb_exists.
  destruct (String.get i s) as [a|] eqn:Hi; [|discriminate].
  destruct (String.get j s) as [d|] eqn:Hj; [|discriminate].
  repeat (apply andb_true_iff in H as [H ?]).
  repeat match goal with
         | H : (_ <=? _)%nat = true |- _ => apply Nat.leb_le in H
         | H : Ascii.eqb _ _ = true |- _ => apply Ascii.eqb_eq in H
         end.
  subst a d.
  assert (Hcls : forall c, Text.not_space_at c = true ->
                           negb (Text.is_space c) = true)
    by (intros c [Hc _]%andb_true_iff; exact Hc).
  apply all_get. intros k c Hk. pose proof (get_lt _ _ _ Hk) as Hlt.
  unfold Text.slice in *.
  destruct (decide (k < i)%nat) as [Hki|Hki].
  { apply Hcls.
    match goal with
    | H : Text.all _ (String.substring 0 _ s) = true |- _ =>
        apply (proj1 (all_get _ _) H k)
    end.
    rewrite String.substring_correct1 by lia. by rewrite Nat.add_0_r. }
  destruct (decide (k = i)) as [->|Hne1].
  { rewrite Hi in Hk. by injection Hk as <-. }
  destruct (decide (k < j)%nat) as [Hkj|Hkj].
  { apply Hcls.
    match goal with
    | H : Text.all _ (String.substring (i + 1) _ s) = true |- _ =>
        apply (proj1 (all_get _ _) H (k - (i + 1))%nat)
    end.
    rewrite String.substring_correct1 by lia.
    by replace (k - (i + 1) + (i + 1))%nat with k by lia. }
  destruct (decide (k = j)) as [->|Hne2].
  { rewrite Hj in Hk. by injection Hk as <-. }
  apply Hcls.
  match goal with
  | H : Text.all _ (String.substring (j + 1) _ s) = true |- _ =>
      apply (proj1 (all_get _ _) H (k - (j + 1))%nat)
  end.
  rewrite String.substring_correct1 by lia.
  by replace (k - (j + 1) + (j + 1))%nat with k by lia.
Qed.

Lemma lower_plain c :
  Text.is_space c = false -> plain_unit (Text.lower c) = true.
Proof.
  destruct c as [[] [] [] [] [] [] [] []]; vm_compute; intros;
    (reflexivity || discriminate).
Qed.

Lemma toLowerCase_plain s :
  Text.all (fun c => negb (Text.is_space c)) s = true ->
  Text.all plain_unit (Text.toLowerCase s) = true.
Proof.
  unfold Text.toLowerCase. induction s as [|c s IH]; simpl; [reflexivity|].
  intros [Hc Hs]%andb_true_iff. apply negb_true_iff in Hc.
  by rewrite (lower_plain c Hc), (IH Hs).
Qed.

(** X1.  [idPayloadValid] lets an identifier through exactly when it holds
    a code unit that is not white space; every other identifier, the empty
    one included, makes it throw the [InvalidPayload] value. *)
Theorem idPayloadValid_rejects_exactly_blank id :
  (Core.idPayloadValid id = None <-> blank id = false)
  /\ (Core.idPayloadValid id
      = Some (Core.Throw (InvalidPayload "Please provide a valid ID as text."))
      <-> blank id = true).
Proof.
  assert (Hnb : blank id = false -> Core.idPayloadValid id = None).
  { intros Hb. destruct (trimStart_nonblank _ Hb) as (c & t & E & Hc).
    unfold Core.idPayloadValid, Text.trim. rewrite E, (trimEnd_head c t Hc).
    destruct id; [discriminate|reflexivity]. }
  split; split; intros H.
  - destruct (blank id) eqn:Hb; [|reflexivity].
    rewrite (idPayloadValid_blank _ Hb) in H. discriminate.
  - by apply Hnb.
  - destruct (blank id) eqn:Hb; [reflexivity|].
    rewrite Hnb in H by reflexivity. discriminate.
  - by apply idPayloadValid_blank.
Qed.

(** *** The canister, call by call *)

Lemma createResearcher_refused env name address email phone st :
  is_Ok (Core.createResearcher env name address email phone st).1 = false ->
  (Core.createResearcher env name address email phone st).2 = st.
Proof.
  handlers; branches; intros; try reflexivity; discriminate.
Qed.

(** X2.  A call leaves the maps as they were unless it is an update method
    that is answered with [Ok] or, in the first copy, one of [submitReview],
    [createMilestone] and [submitProof] that has stored its new record and is
    answered with an [Error] message.  So a query, a call that traps and a
    call answered with [NotFound] or [InvalidPayload] change nothing. *)
Theorem state_changes_only_on_update v env c st :
  Core.exec v env c st = st
  \/ match c with
  | Core.CreateResearcher name address email phone =>
      exists r,
        (Core.createResearcher env name address email phone st).1 = Ok r
  | Core.CreateProposal researcherId title description methodology
      funding_target =>
      exists p,
        (Core.createProposal v env researcherId title description methodology
           funding_target st).1 = Ok p
  | Core.FundProposal proposal_id funding_amount =>
      exists p, (Core.fundProposal v proposal_id funding_amount st).1 = Ok p
  | Core.VerifyMilestone proposal_id milestone_id =>
      exists m, (Core.verifyMilestone v proposal_id milestone_id st).1 = Ok m
  | Core.SubmitReview proposal_id score comments stake_amount =>
      match v with
      | Core.Plain =>
          exists r,
            (Core.submitReview v env proposal_id score comments stake_amount
               st).1 = Ok r
      | Core.Guarded =>
          exists text,
            (Core.submitReview v env proposal_id score comments stake_amount
               st).1 = Err (Error ("Error occured " +:+ text))
      end
  | Core.CreateMilestone proposal_id description required_funding deadline =>
      match v with
      | Core.Plain =>
          exists m,
            (Core.createMilestone v env proposal_id description
               required_funding deadline st).1 = Ok m
      | Core.Guarded =>
          exists text,
            (Core.createMilestone v env proposal_id description
               required_funding deadline st).1
            = Err (Error ("Error occured " +:+ text))
      end
  | Core.SubmitProof milestone_id methodology_hash results_hash =>
      match v with
      | Core.Plain =>
          exists x,
            (Core.submitProof v env milestone_id methodology_hash
               results_hash st).1 = Ok x
      | Core.Guarded =>
          exists text,
            (Core.submitProof v env milestone_id methodology_hash
               results_hash st).1
            = Err (Error ("Error occured " +:+ text))
      end
  | _ => False
  end.
Proof.
  destruct c; simpl; handlers; branches;
    try (left; reflexivity); right; eauto.
Qed.

Lemma state_changes_only_on_update_witness :
  Core.reviews
    (Core.exec Core.Guarded (Demo.bob Demo.id5)
       (Core.SubmitReview Demo.id2 9 "Clear method" 1000)
       (Demo.proposed Core.Guarded))
  !! Demo.id5
  <> Core.reviews (Demo.proposed Core.Guarded) !! Demo.id5
  /\ exists text,
       (Core.submitReview Core.Guarded (Demo.bob Demo.id5) Demo.id2 9
          "Clear method" 1000 (Demo.proposed Core.Guarded)).1
       = Err (Error ("Error occured " +:+ text)).
Proof.
  assert (Hne : Core.reviews
                  (Core.exec Core.Guarded (Demo.bob Demo.id5)
                     (Core.SubmitReview Demo.id2 9 "Clear method" 1000)
                     (Demo.proposed Core.Guarded))
                !! Demo.id5
                <> Core.reviews (Demo.proposed Core.Guarded) !! Demo.id5)
    by (vm_compute; discriminate).
  split; [exact Hne|].
  destruct (state_changes_only_on_update Core.Guarded (Demo.bob Demo.id5)
              (Core.SubmitReview Demo.id2 9 "Clear method" 1000)
              (Demo.proposed Core.Guarded)) as [H|H]; [|exact H].
  exfalso. apply Hne. by rewrite H.
Defined.

Lemma filter_nothing {A} (l : list A) : List.filter (fun _ => false) l = [].
Proof. induction l; [reflexivity|assumption]. Qed.

(** X3.  [getResearcherByOwner] never finds anybody: its filter compares the
    owner's text with the method [toText] itself, so whatever the store holds
    and whoever calls, the answer is [NotFound]. *)
Theorem getResearcherByOwner_never_finds env st :
  Core.getResearcherByOwner env st
  = (Err (NotFound ("Researcher with owner=" +:+ caller env
                    +:+ " not found.")), st).
Proof.
  unfold Core.getResearcherByOwner, Core.owner_is_caller.
  by rewrite filter_nothing.
Qed.

Lemma find_values_none {V} (f : V -> bool) (m : gmap text V) k x :
  List.find f (Core.values m) = None -> m !! k = Some x -> f x = false.
Proof.
  intros Hf Hk. eapply List.find_none; [exact Hf|].
  apply list_elem_of_In. unfold Core.values.
  apply list_elem_of_fmap. exists (k, x). split; [reflexivity|].
  by apply elem_of_map_to_list.
Qed.

(** What a successful [createResearcher] has checked and written. *)
Lemma createResearcher_Ok env name address email phone st r st' :
  Core.createResearcher env name address email phone st = (Ok r, st') ->
  2 <= Text.length (Text.trim name)
  /\ 5 <= Text.length (Text.trim address)
  /\ Text.emailRegex_test email = true
  /\ Text.phoneRegex_test phone = true
  /\ (forall k q, Core.researchers st !! k = Some q ->
                  Researcher.email q <> email /\ Researcher.phone q <> phone)
  /\ r = Researcher.mk (uuid env) (Text.trim name) (Text.trim address)
           (Text.toLowerCase email) phone (caller env) 0 0 [] [] []
  /\ st' = Core.set_researchers st (<[uuid env := r]> (Core.researchers st)).
Proof.
  unfold Core.createResearcher.
  destruct (Text.falsy name || _) eqn:E1; [discriminate|].
  destruct (Text.falsy address || _) eqn:E2; [discriminate|].
  destruct (Text.falsy email || _) eqn:E3; [discriminate|].
  destruct (Text.falsy phone || _) eqn:E4; [discriminate|]. cbv zeta.
  destruct (List.find _ _) eqn:E5; [discriminate|].
  apply orb_false_iff in E1 as [_ E1], E2 as [_ E2], E3 as [_ E3],
    E4 as [_ E4].
  apply N.ltb_ge in E1, E2. apply negb_false_iff in E3, E4.
  pose proof E4 as Hd. unfold Text.phoneRegex_test in Hd.
  apply andb_true_iff in Hd as [[Hd _]%andb_true_iff _].
  rewrite (strip_digits _ Hd), (trim_no_space _ (emailRegex_no_space _ E3)).
  intros [= <- <-]. repeat split; auto.
  - pose proof (find_values_none _ _ k q E5 H) as Hf. simpl in Hf.
    apply orb_false_iff in Hf as [Hf _]. by apply String.eqb_neq.
  - pose proof (find_values_none _ _ k q E5 H) as Hf. simpl in Hf.
    apply orb_false_iff in Hf as [_ Hf]. by apply String.eqb_neq.
Qed.

Lemma exec_researchers v env c st :
  (forall n a e p, c <> Core.CreateResearcher n a e p) ->
  Core.researchers (Core.exec v env c st) = Core.researchers st.
Proof.
  intros Hc. destruct c; simpl; handlers; branches; try reflexivity.
  all: exfalso; by eapply Hc.
Qed.

Lemma createResearcher_normalised env name address email phone st r st' :
  Core.createResearcher env name address email phone st = (Ok r, st') ->
  normalised r.
Proof.
  intros (Hn & Ha & He & Hp & _ & -> & _)%createResearcher_Ok.
  unfold Text.phoneRegex_test in Hp.
  apply andb_true_iff in Hp as [[Hd Hlo]%andb_true_iff Hhi].
  apply N.leb_le in Hlo, Hhi.
  repeat split; simpl; auto using trim_idem.
  by apply toLowerCase_plain, emailRegex_no_space.
Qed.

Lemma exec_normalised v env c st :
  map_Forall (fun _ r => normalised r) (Core.researchers st) ->
  map_Forall (fun _ r => normalised r)
    (Core.researchers (Core.exec v env c st)).
Proof.
  intros H.
  destruct c as [n a e p| | | | | | | | | | | |];
    try (rewrite exec_researchers by (intros; discriminate); assumption).
  pose proof (createResearcher_refused env n a e p st) as Hsame.
  simpl in *.
  destruct (Core.createResearcher env n a e p st) as [[r|m|] st'] eqn:E.
  - pose proof (createResearcher_normalised _ _ _ _ _ _ _ _ E) as Hr.
    apply createResearcher_Ok in E as (_ & _ & _ & _ & _ & _ & ->).
    simpl. by apply map_Forall_insert_2.
  - simpl in *. by rewrite Hsame.
  - simpl in *. by rewrite Hsame.
Qed.

Lemma reachable_normalised v st :
  Core.reachable v st ->
  map_Forall (fun _ r => normalised r) (Core.researchers st).
Proof.
  induction 1 as [|env c st _ _ IH]; [apply map_Forall_empty|].
  by apply exec_normalised.
Qed.

(** X4.  Every researcher the canister stores is as [createResearcher]
    wrote it: name and address trimmed and at least 2 and 5 code units long,
    an email without white space and without upper-case letters, a phone of
    10 to 15 digits and nothing else, and no reputation: score and points are
    0 and the lists of badges, contributions and achievements are empty,
    because no handler of the canister ever updates a researcher. *)
Theorem stored_researchers_normalised v st k r :
  Core.reachable v st ->
  Core.researchers st !! k = Some r ->
  Text.trim (Researcher.name r) = Researcher.name r
  /\ 2 <= Text.length (Researcher.name r)
  /\ Text.trim (Researcher.address r) = Researcher.address r
  /\ 5 <= Text.length (Researcher.address r)
  /\ Text.all plain_unit (Researcher.email r) = true
  /\ Text.all Text.is_digit (Researcher.phone r) = true
  /\ 10 <= Text.length (Researcher.phone r) <= 15
  /\ Researcher.reputation_score r = 0
  /\ Researcher.total_points r = 0
  /\ Researcher.badges r = []
  /\ Researcher.contributions r = []
  /\ Researcher.achievements r = [].
Proof. intros Hr Hk. exact (reachable_normalised v st Hr k r Hk). Qed.

Lemma stored_researchers_normalised_witness :
  Text.all plain_unit "jane.smith@research.org" = true
  /\ Text.all Text.is_digit "1234567890" = true.
Proof.
  destruct (stored_researchers_normalised Core.Guarded
              (Demo.registered Core.Guarded) Demo.id1
              (Researcher.mk Demo.id1 "Jane Smith" "123 Research Ave"
                 "jane.smith@research.org" "1234567890" "alice" 0 0 [] [] []))
    as (_ & _ & _ & _ & He & Hp & _).
  - apply Core.reachable_exec; [reflexivity|]. constructor.
  - vm_compute. reflexivity.
  - split; [exact He|exact Hp].
Defined.

Lemma exec_phones_unique v env c st :
  phones_unique st -> phones_unique (Core.exec v env c st).
Proof.
  intros H. unfold phones_unique.
  destruct c as [n a e p| | | | | | | | | | | |];
    try (rewrite exec_researchers by (intros; discriminate); assumption).
  pose proof (createResearcher_refused env n a e p st) as Hsame.
  simpl in *.
  destruct (Core.createResearcher env n a e p st) as [[r|m|] st'] eqn:E.
  - apply createResearcher_Ok in E as (_ & _ & _ & _ & Hnew & -> & ->).
    simpl. intros k1 k2 r1 r2 H1 H2 Hne.
    destruct (decide (uuid env = k1)) as [<-|N1];
      destruct (decide (uuid env = k2)) as [<-|N2]; try done.
    + rewrite lookup_insert_eq in H1. rewrite lookup_insert_ne in H2 by done.
      injection H1 as <-. simpl. intros Heq.
      destruct (Hnew _ _ H2) as [_ Hp]. by apply Hp.
    + rewrite lookup_insert_eq in H2. rewrite lookup_insert_ne in H1 by done.
      injection H2 as <-. simpl. destruct (Hnew _ _ H1) as [_ Hp]. exact Hp.
    + rewrite lookup_insert_ne in H1, H2 by done. by eapply H.
  - simpl in *. rewrite Hsame by reflexivity. exact H.
  - simpl in *. rewrite Hsame by reflexivity. exact H.
Qed.

(** X5.  No two stored researchers share a phone number: the duplicate
    check of [createResearcher] is sound for phones, since a phone that
    passes the digit check is stored as it was compared. *)
Theorem phones_are_unique v st k1 k2 r1 r2 :
  Core.reachable v st ->
  Core.researchers st !! k1 = Some r1 ->
  Core.researchers st !! k2 = Some r2 ->
  k1 <> k2 ->
  Researcher.phone r1 <> Researcher.phone r2.
Proof.
  intros Hr. revert k1 k2 r1 r2.
  induction Hr as [|env c st _ _ IH]; [|by apply exec_phones_unique].
  intros k1 k2 r1 r2 H1. simpl in H1. by rewrite lookup_empty in H1.
Qed.

Lemma phones_are_unique_witness :
  "1234567890" <> "0987654321"
  /\ Core.createResearcher (Demo.bob Demo.id3) "Bob Stone" "45 College Road"
       "bob@lab.org" "1234567890"
       (Core.exec Core.Plain (Demo.bob Demo.id2)
          (Core.CreateResearcher "Bob Stone" "45 College Road" "bob@lab.org"
             "0987654321")
          (Demo.registered Core.Plain))
     = (Err (InvalidPayload
               "Researcher with this email or phone already exists."),
        Core.exec Core.Plain (Demo.bob Demo.id2)
          (Core.CreateResearcher "Bob Stone" "45 College Road" "bob@lab.org"
             "0987654321")
          (Demo.registered Core.Plain)).
Proof.
  split; [|vm_compute; reflexivity].
  apply (phones_are_unique Core.Plain
           (Core.exec Core.Plain (Demo.bob Demo.id2)
              (Core.CreateResearcher "Bob Stone" "45 College Road"
                 "bob@lab.org" "0987654321")
              (Demo.registered Core.Plain))
           Demo.id1 Demo.id2
           (Researcher.mk Demo.id1 "Jane Smith" "123 Research Ave"
              "jane.smith@research.org" "1234567890" "alice" 0 0 [] [] [])
           (Researcher.mk Demo.id2 "Bob Stone" "45 College Road"
              "bob@lab.org" "0987654321" "bob" 0 0 [] [] [])).
  - repeat (apply Core.reachable_exec; [reflexivity|]). constructor.
  - vm_compute. reflexivity.
  - vm_compute. reflexivity.
  - discriminate.
Defined.

(** *** What every reachable state of the canister satisfies *)

Lemma exec_ids_match v env c st : ids_match st -> ids_match (Core.exec v env c st).
Proof.
  intros (H1 & H2 & H3 & H4 & H5).
  destruct c; simpl; handlers; branches;
    try (repeat split; assumption);
    repeat stored_fact; simpl in *;
    repeat split; simpl; try assumption;
    apply map_Forall_insert_2; simpl; try assumption; try reflexivity.
Qed.

Lemma exec_owners_stored v env c st :
  owners_stored st -> owners_stored (Core.exec v env c st).
Proof.
  unfold owners_stored. intros H.
  destruct c; simpl; handlers; branches; try assumption;
    repeat stored_fact; simpl in *;
    try (apply map_Forall_insert_2; simpl; [eauto|assumption]).
  - (* createResearcher adds a researcher *)
    eapply map_Forall_impl; [exact H|]. simpl. intros _ p.
    apply is_Some_insert.
Qed.

Lemma exec_reviews_valid v env c st :
  reviews_valid st -> reviews_valid (Core.exec v env c st).
Proof.
  unfold reviews_valid. intros H.
  destruct c; simpl; handlers; branches; try assumption;
    apply map_Forall_insert_2; simpl; try assumption;
    repeat match goal with
           | H : _ || _ = false |- _ => apply orb_false_iff in H as [H ?]
           | H : (_ <? _) = false |- _ => apply N.ltb_ge in H
           end;
    lia.
Qed.

Lemma reachable_ids_match v st : Core.reachable v st -> ids_match st.
Proof.
  induction 1 as [|env c st _ _ IH]; [|by apply exec_ids_match].
  repeat split; apply map_Forall_empty.
Qed.

Lemma reachable_owners_stored v st : Core.reachable v st -> owners_stored st.
Proof.
  induction 1 as [|env c st _ _ IH]; [|by apply exec_owners_stored].
  apply map_Forall_empty.
Qed.

Lemma reachable_reviews_valid v st : Core.reachable v st -> reviews_valid st.
Proof.
  induction 1 as [|env c st _ _ IH]; [|by apply exec_reviews_valid].
  apply map_Forall_empty.
Qed.

(** X6.  In every reachable state each record is stored under its own
    identifier: the [id] field of a researcher, proposal, milestone, review
    or proof is the key it is found under, also after the handlers that read
    a record, change it and insert it again. *)
Theorem records_sit_under_their_ids v st :
  Core.reachable v st ->
  (forall k r, Core.researchers st !! k = Some r -> Researcher.id r = k)
  /\ (forall k p, Core.proposals st !! k = Some p -> ResearchProposal.id p = k)
  /\ (forall k m, Core.milestones st !! k = Some m -> Milestone.id m = k)
  /\ (forall k r, Core.reviews st !! k = Some r -> Review.id r = k)
  /\ (forall k x, Core.proofs st !! k = Some x ->
                  ProofOfReproduction.id x = k).
Proof. intros H. exact (reachable_ids_match v st H). Qed.

Lemma records_sit_under_their_ids_witness :
  (forall k p, Core.proposals (Demo.reviewed Core.Guarded) !! k = Some p ->
               ResearchProposal.id p = k)
  /\ (forall k m, Core.milestones (Demo.reviewed Core.Guarded) !! k = Some m ->
                  Milestone.id m = k).
Proof.
  destruct (records_sit_under_their_ids Core.Guarded
              (Demo.reviewed Core.Guarded)) as (_ & H2 & H3 & _).
  - repeat (apply Core.reachable_exec; [reflexivity|]). constructor.
  - split; [exact H2|exact H3].
Defined.

(** X7.  Every stored proposal belongs to a stored researcher: its
    [researcherId] is a key of the researcher map, since [createProposal]
    looks the researcher up and nothing removes a researcher. *)
Theorem proposals_have_stored_owners v st pid p :
  Core.reachable v st ->
  Core.proposals st !! pid = Some p ->
  is_Some (Core.researchers st !! ResearchProposal.researcherId p).
Proof. intros H Hp. exact (reachable_owners_stored v st H pid p Hp). Qed.

Lemma proposals_have_stored_owners_witness :
  is_Some (Core.researchers (Demo.reviewed Core.Guarded) !! Demo.id1).
Proof.
  apply (proposals_have_stored_owners Core.Guarded
           (Demo.reviewed Core.Guarded) Demo.id2
           (ResearchProposal.mk Demo.id2 Demo.id1 "Quantum codes"
              "Error correction" "Topological codes" [] 1000 0
              "draft" [] "2024-05-01")).
  - repeat (apply Core.reachable_exec; [reflexivity|]). constructor.
  - vm_compute. reflexivity.
Defined.

(** X8.  The lifecycle fields only take the values the handlers write.  A
    stored proposal has a positive target and its stage is [funding] when
    [current_funding] has reached the target and [draft] otherwise, so the
    stages [in-progress] and [completed] are never reached; a stored
    milestone is [pending] or [completed]. *)
Theorem lifecycle_values v st :
  Core.reachable v st ->
  (forall pid p,
      Core.proposals st !! pid = Some p ->
      0 < ResearchProposal.funding_target p
      /\ (ResearchProposal.stage p = "funding"
          /\ ResearchProposal.funding_target p
             <= ResearchProposal.current_funding p
          \/ ResearchProposal.stage p = "draft"
             /\ ResearchProposal.current_funding p
                < ResearchProposal.funding_target p)
      /\ ResearchProposal.stage p <> "in-progress"
      /\ ResearchProposal.stage p <> "completed")
  /\ (forall mid m,
         Core.milestones st !! mid = Some m ->
         Milestone.status m = "pending" \/ Milestone.status m = "completed").
Proof.
  intros [Hp Hm]%reachable_lifecycle_ok. split; [|exact Hm].
  intros pid p Hpid. destruct (Hp _ _ Hpid) as [Ht Hs]. simpl in *.
  split; [exact Ht|]. rewrite Hs.
  destruct (N.leb_spec (ResearchProposal.funding_target p)
              (ResearchProposal.current_funding p)); repeat split; auto;
    discriminate.
Qed.

Lemma lifecycle_values_witness :
  ResearchProposal.stage
    (ResearchProposal.mk Demo.id2 Demo.id1 "Quantum codes" "Error correction"
       "Topological codes" [Demo.id3] 1000 0 "draft" [Demo.id5] "2024-05-01")
  <> "completed".
Proof.
  destruct (lifecycle_values Core.Plain (Demo.reviewed Core.Plain))
    as [H _].
  - repeat (apply Core.reachable_exec; [reflexivity|]). constructor.
  - destruct (H Demo.id2
                (ResearchProposal.mk Demo.id2 Demo.id1 "Quantum codes"
                   "Error correction" "Topological codes" [Demo.id3] 1000 0
                   "draft" [Demo.id5] "2024-05-01")) as (_ & _ & _ & Hc).
    + vm_compute. reflexivity.
    + exact Hc.
Defined.

(** X9.  Every stored review carries a score from 1 to 10 and a stake of at
    least 100: [submitReview] stores nothing else, and no handler rewrites a
    review. *)
Theorem stored_reviews_are_valid v st rid r :
  Core.reachable v st ->
  Core.reviews st !! rid = Some r ->
  1 <= Review.score r <= 10 /\ 100 <= Review.stake_amount r.
Proof. intros H Hr. exact (reachable_reviews_valid v st H rid r Hr). Qed.

Lemma stored_reviews_are_valid_witness : 1 <= 9 <= 10 /\ 100 <= 1000.
Proof.
  apply (stored_reviews_are_valid Core.Guarded (Demo.reviewed Core.Guarded)
           Demo.id5
           (Review.mk Demo.id5 "bob" 9 "Clear method" 1000 false)).
  - repeat (apply Core.reachable_exec; [reflexivity|]). constructor.
  - vm_compute. reflexivity.
Defined.

(** *** Records are never lost and only grow *)

Lemma proposal_grows_refl p : proposal_grows p p.
Proof. repeat split; (reflexivity || lia). Qed.

Lemma milestone_grows_refl m : milestone_grows m m.
Proof. repeat split; (reflexivity || auto). Qed.

Lemma exec_proposal_grows v env c st pid p :
  Core.proposals st !! uuid env = None ->
  Core.proposals st !! pid = Some p ->
  exists p',
    Core.proposals (Core.exec v env c st) !! pid = Some p'
    /\ proposal_grows p p'.
Proof.
  intros Hfresh Hp.
  assert (Hsame : exists p',
             Core.proposals st !! pid = Some p' /\ proposal_grows p p')
    by (exists p; split; [assumption|apply proposal_grows_refl]).
  destruct c; simpl; handlers; branches; try assumption;
    match goal with
    | |- context [<[?i := ?x]> _ !! pid] =>
        destruct (decide (i = pid)) as [Heq|Hne];
        [rewrite Heq in *; rewrite lookup_insert_eq
        |by rewrite lookup_insert_ne]
    end;
    try congruence;
    eexists; (split; [reflexivity|]);
    match goal with
    | H1 : ?m !! pid = Some ?q, H2 : ?m !! pid = Some p |- _ =>
        rewrite H1 in H2; injection H2 as ->
    end;
    repeat split; simpl;
    try reflexivity; try lia; by apply prefix_app_r.
Qed.

Lemma exec_milestone_grows v env c st mid m :
  Core.milestones st !! uuid env = None ->
  Core.milestones st !! mid = Some m ->
  exists m',
    Core.milestones (Core.exec v env c st) !! mid = Some m'
    /\ milestone_grows m m'.
Proof.
  intros Hfresh Hm.
  assert (Hsame : exists m',
             Core.milestones st !! mid = Some m' /\ milestone_grows m m')
    by (exists m; split; [assumption|apply milestone_grows_refl]).
  destruct c; simpl; handlers; branches; try assumption;
    match goal with
    | |- context [<[?i := ?x]> _ !! mid] =>
        destruct (decide (i = mid)) as [Heq|Hne];
        [rewrite Heq in *; rewrite lookup_insert_eq
        |by rewrite lookup_insert_ne]
    end;
    try congruence;
    eexists; (split; [reflexivity|]);
    match goal with
    | H1 : ?s !! mid = Some ?q, H2 : ?s !! mid = Some m |- _ =>
        rewrite H1 in H2; injection H2 as ->
    end;
    repeat split; simpl;
    try reflexivity; auto; by apply prefix_app_r.
Qed.

Lemma exec_keeps_rest v env c st :
  unused st (uuid env) ->
  (forall k r, Core.researchers st !! k = Some r ->
               Core.researchers (Core.exec v env c st) !! k = Some r)
  /\ (forall k r, Core.reviews st !! k = Some r ->
                  Core.reviews (Core.exec v env c st) !! k = Some r)
  /\ (forall k x, Core.proofs st !! k = Some x ->
                  Core.proofs (Core.exec v env c st) !! k = Some x).
Proof.
  intros (F1 & _ & _ & F4 & F5).
  destruct c; simpl; handlers; branches;
    repeat split; simpl; intros k r Hk; try assumption;
    (destruct (decide (uuid env = k)) as [<-|Hne];
     [congruence|by rewrite lookup_insert_ne]).
Qed.

(** X10.  A call that draws an unused identifier loses nothing and rewrites
    nothing but what grows.  Stored researchers, reviews and proofs stay as
    they are.  A stored proposal keeps its identifier, owner, texts, target
    and creation stamp; its lists of milestones and reviews are only
    appended to and its [current_funding] does not go down.  A stored
    milestone keeps its identifier, description, required funding and
    deadline; its list of proofs is only appended to, and once [completed]
    it stays so. *)
Theorem stored_records_only_grow v env c st :
  unused st (uuid env) ->
  (forall k r, Core.researchers st !! k = Some r ->
               Core.researchers (Core.exec v env c st) !! k = Some r)
  /\ (forall k r, Core.reviews st !! k = Some r ->
                  Core.reviews (Core.exec v env c st) !! k = Some r)
  /\ (forall k x, Core.proofs st !! k = Some x ->
                  Core.proofs (Core.exec v env c st) !! k = Some x)
  /\ (forall pid p,
         Core.proposals st !! pid = Some p ->
         exists p',
           Core.proposals (Core.exec v env c st) !! pid = Some p'
           /\ proposal_grows p p')
  /\ (forall mid m,
         Core.milestones st !! mid = Some m ->
         exists m',
           Core.milestones (Core.exec v env c st) !! mid = Some m'
           /\ milestone_grows m m').
Proof.
  intros Hu. pose proof Hu as (_ & F2 & F3 & _).
  destruct (exec_keeps_rest v env c st Hu) as (H1 & H2 & H3).
  repeat split; try assumption.
  - intros pid p. by apply exec_proposal_grows.
  - intros mid m. by apply exec_milestone_grows.
Qed.

Lemma stored_records_only_grow_witness :
  exists p',
    Core.proposals
      (Core.exec Core.Guarded (Demo.bob Demo.id5)
         (Core.SubmitReview Demo.id2 9 "Clear method" 1000)
         (Demo.proved Core.Guarded))
    !! Demo.id2 = Some p'
    /\ [] `prefix_of` ResearchProposal.reviews p'.
Proof.
  destruct (stored_records_only_grow Core.Guarded (Demo.bob Demo.id5)
              (Core.SubmitReview Demo.id2 9 "Clear method" 1000)
              (Demo.proved Core.Guarded)) as (_ & _ & _ & H & _).
  - repeat split; vm_compute; reflexivity.
  - destruct (H Demo.id2
                (ResearchProposal.mk Demo.id2 Demo.id1 "Quantum codes"
                   "Error correction" "Topological codes" [] 1000 0
                   "draft" [] "2024-05-01")) as (p' & Hl & Hg).
    + vm_compute. reflexivity.
    + exists p'. split; [exact Hl|].
      destruct Hg as (_ & _ & _ & _ & _ & _ & _ & _ & Hr & _). exact Hr.
Defined.

(** *** The answers of the handlers *)

Lemma falsy_empty s : Text.falsy s = true <-> s = EmptyString.
Proof. destruct s; simpl; split; (reflexivity || discriminate). Qed.

Lemma falsy_nonempty s : Text.falsy s = false <-> s <> EmptyString.
Proof. destruct s; simpl; split; try done. Qed.

(** X11.  [createProposal], for a researcher identifier that passes the
    identifier check.  An empty title, description or methodology, or a
    target of 0, is answered with [InvalidPayload] before the researcher is
    looked up; otherwise an unknown researcher is answered with [NotFound];
    otherwise the call succeeds, whatever the stored proposals are: the new
    proposal is a draft with no funding, no milestones and no reviews, it is
    stored under the drawn identifier and nothing else changes.
    [getProposalById] on that identifier then returns it in the second copy;
    in the first copy the query reads [proposalOpt.Some], which is
    [undefined], and the call traps.  A failed call leaves the state as it
    was. *)
Theorem createProposal_outcomes v env rid title description methodology
    target st :
  passes v rid ->
  (title = EmptyString \/ description = EmptyString
   \/ methodology = EmptyString \/ target = 0 ->
   Core.createProposal v env rid title description methodology target st
   = (Err (InvalidPayload
             "All fields are required, and funding target must be > 0."), st))
  /\ (title <> EmptyString -> description <> EmptyString ->
      methodology <> EmptyString -> 0 < target ->
      (Core.researchers st !! rid = None ->
       Core.createProposal v env rid title description methodology target st
       = (Err (NotFound ("Researcher with id=" +:+ rid +:+ " not found.")),
          st))
      /\ (is_Some (Core.researchers st !! rid) ->
          let p :=
            ResearchProposal.mk (uuid env) rid title description methodology
              [] target 0 "draft" [] (now env) in
          exists st',
            Core.createProposal v env rid title description methodology
              target st = (Ok p, st')
            /\ Core.proposals st' = <[uuid env := p]> (Core.proposals st)
            /\ Core.researchers st' = Core.researchers st
            /\ Core.milestones st' = Core.milestones st
            /\ Core.reviews st' = Core.reviews st
            /\ Core.proofs st' = Core.proofs st
            /\ (passes v (uuid env) ->
                Core.getProposalById v (uuid env) st'
                = (match v with
                   | Core.Plain => Ok p
                   | Core.Guarded => Trap
                   end, st')))).
Proof.
  intros Hv. unfold Core.createProposal. rewrite try_id_passes by done.
  split.
  - intros H.
    assert (Text.falsy title || Text.falsy description
            || Text.falsy methodology || (target <=? 0) = true) as ->;
      [|by destruct v].
    rewrite !orb_true_iff, !falsy_empty, N.leb_le.
    destruct H as [H|[H|[H|H]]]; auto. right. lia.
  - intros Ht Hd Hm Hpos.
    assert (Text.falsy title || Text.falsy description
            || Text.falsy methodology || (target <=? 0) = false) as ->.
    { rewrite !orb_false_iff, !falsy_nonempty, N.leb_gt. auto. }
    split.
    + intros ->. by destruct v.
    + intros [r ->]. simpl. eexists. split; [by destruct v|].
      simpl. repeat split.
      intros Hu. unfold Core.getProposalById.
      rewrite try_id_passes by done. simpl. rewrite lookup_insert_eq.
      by destruct v.
Qed.

Lemma createProposal_outcomes_witness :
  exists st',
    Core.createProposal Core.Guarded (Demo.alice Demo.id2) Demo.id1
      "Quantum codes" "Error correction" "Topological codes" 1000
      (Demo.registered Core.Guarded)
    = (Ok (ResearchProposal.mk Demo.id2 Demo.id1 "Quantum codes"
             "Error correction" "Topological codes" [] 1000 0 "draft" []
             "2024-05-01"), st')
    /\ Core.getProposalById Core.Guarded Demo.id2 st' = (Trap, st').
Proof.
  assert (Hv : passes Core.Guarded Demo.id1) by reflexivity.
  destruct (createProposal_outcomes Core.Guarded (Demo.alice Demo.id2)
              Demo.id1 "Quantum codes" "Error correction" "Topological codes"
              1000 (Demo.registered Core.Guarded) Hv) as [_ H].
  destruct H as [_ H]; try discriminate; [lia|].
  destruct H as (st' & E & _ & _ & _ & _ & _ & Hget).
  - vm_compute. eauto.
  - exists st'. split; [exact E|]. apply Hget. reflexivity.
Defined.

(** X12.  [submitReview], for a proposal identifier that passes the
    identifier check.  An unknown proposal is answered with [NotFound]
    whatever the score and the stake; on a stored proposal a score outside 1
    to 10 or a stake below 100 is answered with [InvalidPayload]; otherwise
    the review, unverified and under the caller's principal, is stored under
    the drawn identifier, and researchers, milestones and proofs stay as they
    are.  The second copy then appends the identifier to the proposal's
    reviews, changes nothing else of the proposal and answers with the
    review.  The first copy reads [proposalOpt.Some], which is [undefined]:
    the proposal is left as it was, and the call answers [Err] with an
    [Error] message although the review is stored.  Nothing ties the
    reviewer to the proposal: its owner may review it, and the same caller
    may review it again. *)
Theorem submitReview_outcomes v env pid score comments stake st :
  passes v pid ->
  match Core.proposals st !! pid with
  | None =>
      Core.submitReview v env pid score comments stake st
      = (Err (NotFound ("Proposal with id=" +:+ pid +:+ " not found.")), st)
  | Some p =>
      (score < 1 \/ 10 < score \/ stake < 100 ->
       Core.submitReview v env pid score comments stake st
       = (Err (InvalidPayload "Invalid score or insufficient stake amount."),
          st))
      /\ (1 <= score <= 10 -> 100 <= stake ->
          let review :=
            Review.mk (uuid env) (caller env) score comments stake false in
          let p' :=
            ResearchProposal.mk (ResearchProposal.id p)
              (ResearchProposal.researcherId p) (ResearchProposal.title p)
              (ResearchProposal.description p)
              (ResearchProposal.methodology p)
              (ResearchProposal.milestones p)
              (ResearchProposal.funding_target p)
              (ResearchProposal.current_funding p) (ResearchProposal.stage p)
              (ResearchProposal.reviews p ++ [uuid env])
              (ResearchProposal.timeline p) in
          exists answered st',
            Core.submitReview v env pid score comments stake st
            = (answered, st')
            /\ Core.reviews st' = <[uuid env := review]> (Core.reviews st)
            /\ Core.researchers st' = Core.researchers st
            /\ Core.milestones st' = Core.milestones st
            /\ Core.proofs st' = Core.proofs st
            /\ match v with
               | Core.Plain =>
                   answered = Ok review
                   /\ Core.proposals st' = <[pid := p']> (Core.proposals st)
               | Core.Guarded =>
                   (exists text,
                       answered = Err (Error ("Error occured " +:+ text)))
                   /\ Core.proposals st' = Core.proposals st
               end)
  end.
Proof.
  intros Hv. unfold Core.submitReview. rewrite try_id_passes by done.
  destruct (Core.proposals st !! pid) as [p|]; [|by destruct v]. split.
  - intros H.
    assert ((score <? 1) || (10 <? score) || (stake <? 100) = true) as ->;
      [|by destruct v].
    rewrite !orb_true_iff, !N.ltb_lt. tauto.
  - intros [Hlo Hhi] Hs.
    assert ((score <? 1) || (10 <? score) || (stake <? 100) = false) as ->.
    { rewrite !orb_false_iff, !N.ltb_ge. auto. }
    simpl. destruct v; simpl; eexists; eexists;
      (split; [reflexivity|]); simpl; repeat split; eauto.
Qed.

Lemma submitReview_outcomes_witness :
  exists text st',
    Core.submitReview Core.Guarded (Demo.bob Demo.id5) Demo.id2 9
      "Clear method" 1000 (Demo.proposed Core.Guarded)
    = (Err (Error ("Error occured " +:+ text)), st')
    /\ Core.reviews st' !! Demo.id5
       = Some (Review.mk Demo.id5 "bob" 9 "Clear method" 1000 false)
    /\ Core.proposals st' = Core.proposals (Demo.proposed Core.Guarded).
Proof.
  assert (Hv : passes Core.Guarded Demo.id2) by reflexivity.
  pose proof (submitReview_outcomes Core.Guarded (Demo.bob Demo.id5) Demo.id2
                9 "Clear method" 1000 (Demo.proposed Core.Guarded) Hv) as H.
  assert (E : Core.proposals (Demo.proposed Core.Guarded) !! Demo.id2
              = Some (ResearchProposal.mk Demo.id2 Demo.id1 "Quantum codes"
                        "Error correction" "Topological codes" [] 1000 0
                        "draft" [] "2024-05-01"))
    by (vm_compute; reflexivity).
  rewrite E in H. destruct H as [_ H].
  destruct H as (answered & st' & Es & Hrev & _ & _ & _ & [text Ht] & Hp);
    [lia|lia|].
  exists text, st'. rewrite Es, Ht. split; [reflexivity|].
  split; [|exact Hp]. rewrite Hrev. apply lookup_insert_eq.
Defined.

(** X13.  [createMilestone], for a proposal identifier that passes the
    identifier check: an unknown proposal is answered with [NotFound]; on a
    stored proposal nothing is checked, since description, required funding
    and deadline are free, and the milestone is stored as [pending] with no
    proof, researchers, reviews and proofs staying as they are.  The second
    copy then appends the identifier to the proposal's milestones, changes
    nothing else of the proposal and answers with the milestone;
    [verifyMilestone] on it right afterwards, with no proof submitted,
    completes it.  The first copy reads [proposalOpt.Some], which is
    [undefined]: the proposal is left as it was and the call answers [Err]
    with an [Error] message although the milestone is stored, and
    [verifyMilestone] on it answers [Err] with an [Error] message too. *)
Theorem createMilestone_outcomes v env pid description required deadline st :
  passes v pid ->
  match Core.proposals st !! pid with
  | None =>
      Core.createMilestone v env pid description required deadline st
      = (Err (NotFound ("Proposal with id=" +:+ pid +:+ " not found.")), st)
  | Some p =>
      let m :=
        Milestone.mk (uuid env) description required deadline "pending" [] in
      let p' :=
        ResearchProposal.mk (ResearchProposal.id p)
          (ResearchProposal.researcherId p) (ResearchProposal.title p)
          (ResearchProposal.description p)
          (ResearchProposal.methodology p)
          (ResearchProposal.milestones p ++ [uuid env])
          (ResearchProposal.funding_target p)
          (ResearchProposal.current_funding p) (ResearchProposal.stage p)
          (ResearchProposal.reviews p)
          (ResearchProposal.timeline p) in
      exists answered st',
        Core.createMilestone v env pid description required deadline st
        = (answered, st')
        /\ Core.milestones st' = <[uuid env := m]> (Core.milestones st)
        /\ Core.researchers st' = Core.researchers st
        /\ Core.reviews st' = Core.reviews st
        /\ Core.proofs st' = Core.proofs st
        /\ match v with
           | Core.Plain =>
               answered = Ok m
               /\ Core.proposals st' = <[pid := p']> (Core.proposals st)
               /\ (Core.verifyMilestone v pid (uuid env) st').1
                  = Ok (Milestone.mk (uuid env) description required deadline
                          "completed" [])
           | Core.Guarded =>
               (exists text,
                   answered = Err (Error ("Error occured " +:+ text)))
               /\ Core.proposals st' = Core.proposals st
               /\ exists text,
                    Core.verifyMilestone v pid (uuid env) st'
                    = (Err (Error ("Error occured " +:+ text)), st')
           end
  end.
Proof.
  intros Hv. unfold Core.createMilestone. rewrite try_id_passes by done.
  destruct (Core.proposals st !! pid) as [p|] eqn:Hp; [|by destruct v].
  simpl. destruct v; simpl; eexists; eexists;
    (split; [reflexivity|]); simpl; repeat split; eauto.
  - unfold Core.verifyMilestone, Core.try_id.
    destruct (Core.idPayloadValid (uuid env)); simpl; [eauto|].
    rewrite Hp, lookup_insert_eq. simpl. eauto.
  - unfold Core.verifyMilestone, Core.try_id. simpl.
    by rewrite !lookup_insert_eq.
Qed.

Lemma createMilestone_outcomes_witness :
  exists text st',
    Core.createMilestone Core.Guarded (Demo.alice Demo.id3) Demo.id2
      "Prototype" 500 "2025-01-01" (Demo.proposed Core.Guarded)
    = (Err (Error ("Error occured " +:+ text)), st')
    /\ Core.milestones st' !! Demo.id3
       = Some (Milestone.mk Demo.id3 "Prototype" 500 "2025-01-01" "pending"
                 [])
    /\ Core.proposals st' = Core.proposals (Demo.proposed Core.Guarded).
Proof.
  assert (Hv : passes Core.Guarded Demo.id2) by reflexivity.
  pose proof (createMilestone_outcomes Core.Guarded (Demo.alice Demo.id3)
                Demo.id2 "Prototype" 500 "2025-01-01"
                (Demo.proposed Core.Guarded) Hv) as H.
  assert (E : Core.proposals (Demo.proposed Core.Guarded) !! Demo.id2
              = Some (ResearchProposal.mk Demo.id2 Demo.id1 "Quantum codes"
                        "Error correction" "Topological codes" [] 1000 0
                        "draft" [] "2024-05-01"))
    by (vm_compute; reflexivity).
  rewrite E in H.
  destruct H as (answered & st' & Es & Hm & _ & _ & _ & [text Ht] & Hp & _).
  exists text, st'. rewrite Es, Ht. split; [reflexivity|].
  split; [|exact Hp]. rewrite Hm. apply lookup_insert_eq.
Defined.

Lemma values_elem {V} (m : gmap text V) x :
  x ∈ Core.values m <-> exists k, m !! k = Some x.
Proof.
  unfold Core.values. rewrite list_elem_of_fmap. split.
  - intros [[k y] [-> H]]. exists k. by apply elem_of_map_to_list.
  - intros [k H]. exists (k, x). split; [reflexivity|].
    by apply elem_of_map_to_list.
Qed.

Lemma values_nil {V} (m : gmap text V) : Core.values m = [] <-> m = ∅.
Proof.
  unfold Core.values. rewrite <- map_to_list_empty_iff.
  split; [apply fmap_nil_inv|by intros ->].
Qed.

Lemma values_length {V} (m : gmap text V) :
  List.length (Core.values m) = size m.
Proof. unfold Core.values. by rewrite length_fmap, length_map_to_list. Qed.

(** X14.  [getAllResearchers] and [getAllproposals] answer [NotFound]
    exactly when their map is empty; otherwise they answer with a list that
    holds every stored record, nothing else, and as many entries as the map
    has keys.  Neither changes the state. *)
Theorem getAll_lists_the_store st :
  (Core.researchers st = ∅ ->
   Core.getAllResearchers st = (Err (NotFound "No researchers found."), st))
  /\ (Core.researchers st <> ∅ ->
      exists l,
        Core.getAllResearchers st = (Ok l, st)
        /\ (forall r, r ∈ l <-> exists k, Core.researchers st !! k = Some r)
        /\ List.length l = size (Core.researchers st))
  /\ (Core.proposals st = ∅ ->
      Core.getAllproposals st = (Err (NotFound "No proposals found."), st))
  /\ (Core.proposals st <> ∅ ->
      exists l,
        Core.getAllproposals st = (Ok l, st)
        /\ (forall p, p ∈ l <-> exists k, Core.proposals st !! k = Some p)
        /\ List.length l = size (Core.proposals st)).
Proof.
  unfold Core.getAllResearchers, Core.getAllproposals.
  repeat split.
  - intros H%values_nil. by rewrite H.
  - intros H. exists (Core.values (Core.researchers st)).
    split; [|split; [apply values_elem|apply values_length]].
    destruct (Core.values (Core.researchers st)) eqn:E; [|reflexivity].
    by apply values_nil in E.
  - intros H%values_nil. by rewrite H.
  - intros H. exists (Core.values (Core.proposals st)).
    split; [|split; [apply values_elem|apply values_length]].
    destruct (Core.values (Core.proposals st)) eqn:E; [|reflexivity].
    by apply values_nil in E.
Qed.

(** X15.  [getProposalsByResearcherId], for an identifier that passes the
    identifier check, answers with exactly the stored proposals whose
    [researcherId] is the one asked for, and with [NotFound] when there is
    none: a researcher without proposals and an unknown researcher get the
    same answer.  The state is not changed. *)
Theorem getProposalsByResearcherId_filters v rid st :
  passes v rid ->
  ((forall k p, Core.proposals st !! k = Some p ->
                ResearchProposal.researcherId p <> rid) ->
   Core.getProposalsByResearcherId v rid st
   = (Err (NotFound ("No proposals found for researcher with id="
                     +:+ rid +:+ ".")), st))
  /\ ((exists k p, Core.proposals st !! k = Some p
                   /\ ResearchProposal.researcherId p = rid) ->
      exists l,
        Core.getProposalsByResearcherId v rid st = (Ok l, st)
        /\ forall p,
             p ∈ l <->
             exists k, Core.proposals st !! k = Some p
                       /\ ResearchProposal.researcherId p = rid).
Proof.
  intros Hv. unfold Core.getProposalsByResearcherId.
  rewrite try_id_passes by done.
  set (f := fun p => String.eqb (ResearchProposal.researcherId p) rid).
  assert (Hin : forall p,
             p ∈ List.filter f (Core.values (Core.proposals st)) <->
             exists k, Core.proposals st !! k = Some p
                       /\ ResearchProposal.researcherId p = rid).
  { intros p. rewrite list_elem_of_In, List.filter_In, <- list_elem_of_In.
    rewrite values_elem. unfold f. rewrite String.eqb_eq.
    split; [intros [[k Hk] Hr]|intros (k & Hk & Hr)]; eauto. }
  split.
  - intros Hnone.
    destruct (List.filter f _) as [|p l] eqn:E; [reflexivity|].
    destruct (proj1 (Hin p)) as (k & Hk & Hr); [apply list_elem_of_here|].
    by destruct (Hnone k p Hk).
  - intros (k & p & Hk & Hr). eexists. split; [|exact Hin].
    destruct (List.filter f _) as [|q l] eqn:E; [|reflexivity].
    exfalso. eapply not_elem_of_nil. apply Hin. eauto.
Qed.

Lemma getProposalsByResearcherId_filters_witness :
  exists l,
    Core.getProposalsByResearcherId Core.Guarded Demo.id1
      (Demo.proposed Core.Guarded) = (Ok l, Demo.proposed Core.Guarded).
Proof.
  destruct (getProposalsByResearcherId_filters Core.Guarded Demo.id1
              (Demo.proposed Core.Guarded)) as [_ H].
  - reflexivity.
  - destruct H as (l & E & _).
    + exists Demo.id2. eexists. split; [vm_compute; reflexivity|reflexivity].
    + exists l. exact E.
Defined.

Lemma createResearcher_accepts env name address email phone st :
  2 <= Text.length (Text.trim name) ->
  5 <= Text.length (Text.trim address) ->
  Text.emailRegex_test email = true ->
  Text.phoneRegex_test phone = true ->
  (forall k q, Core.researchers st !! k = Some q ->
               Researcher.email q <> email /\ Researcher.phone q <> phone) ->
  is_Ok (Core.createResearcher env name address email phone st).1 = true.
Proof.
  intros Hn Ha He Hp Hnew. unfold Core.createResearcher.
  rewrite (falsy_length name) by (pose proof (trim_length name); lia).
  rewrite (falsy_length address) by (pose proof (trim_length address); lia).
  rewrite (proj2 (N.ltb_ge _ _) Hn), (proj2 (N.ltb_ge _ _) Ha), He, Hp.
  assert (Text.falsy email = false) as -> by (by destruct email).
  assert (Text.falsy phone = false) as -> by (by destruct phone).
  simpl. rewrite find_none_values; [reflexivity|].
  intros k q Hk. destruct (Hnew k q Hk).
  apply orb_false_iff. split; by apply String.eqb_neq.
Qed.

(** X16.  [createResearcher] checks name, address, email, phone and
    duplicates in that order, and the first check that fails decides the
    message: a name whose trimmed length is below 2 (an all-blank name
    included), then an address whose trimmed length is below 5, then an email
    the expression refuses, then a phone that is not 10 to 15 digits, then a
    stored researcher with the same email or phone as given.  The call
    succeeds exactly when all five checks pass, and a failed call leaves the
    state as it was. *)
Theorem createResearcher_checks env name address email phone st :
  let answer := Core.createResearcher env name address email phone st in
  let bad m := answer = (Err (InvalidPayload m), st) in
  (is_Ok answer.1 = true <->
   2 <= Text.length (Text.trim name)
   /\ 5 <= Text.length (Text.trim address)
   /\ Text.emailRegex_test email = true
   /\ Text.phoneRegex_test phone = true
   /\ forall k q, Core.researchers st !! k = Some q ->
                  Researcher.email q <> email /\ Researcher.phone q <> phone)
  /\ (Text.length (Text.trim name) < 2 ->
      bad "Name must be at least 2 characters long.")
  /\ (2 <= Text.length (Text.trim name) ->
      Text.length (Text.trim address) < 5 ->
      bad "Address must be at least 5 characters long.")
  /\ (2 <= Text.length (Text.trim name) ->
      5 <= Text.length (Text.trim address) ->
      Text.emailRegex_test email = false ->
      bad "Invalid email format.")
  /\ (2 <= Text.length (Text.trim name) ->
      5 <= Text.length (Text.trim address) ->
      Text.emailRegex_test email = true ->
      Text.phoneRegex_test phone = false ->
      bad "Phone number must be 10-15 digits.")
  /\ (2 <= Text.length (Text.trim name) ->
      5 <= Text.length (Text.trim address) ->
      Text.emailRegex_test email = true ->
      Text.phoneRegex_test phone = true ->
      (exists k q, Core.researchers st !! k = Some q
                   /\ (Researcher.email q = email
                       \/ Researcher.phone q = phone)) ->
      bad "Researcher with this email or phone already exists.").
Proof.
  simpl.
  assert (Hn : 2 <= Text.length (Text.trim name) ->
               Text.falsy name || (Text.length (Text.trim name) <? 2) = false).
  { intros H. rewrite falsy_length by (pose proof (trim_length name); lia).
    by apply N.ltb_ge. }
  assert (Ha : 5 <= Text.length (Text.trim address) ->
               Text.falsy address || (Text.length (Text.trim address) <? 5)
               = false).
  { intros H. rewrite falsy_length by (pose proof (trim_length address); lia).
    by apply N.ltb_ge. }
  assert (He : Text.emailRegex_test email = true ->
               Text.falsy email || negb (Text.emailRegex_test email) = false).
  { intros H. rewrite H. by destruct email. }
  split; [|repeat split].
  - split.
    + destruct (Core.createResearcher env name address email phone st)
        as [[r|m|] st'] eqn:E; [|discriminate|discriminate].
      intros _. apply createResearcher_Ok in E. tauto.
    + intros (H1 & H2 & H3 & H4 & H5). by apply createResearcher_accepts.
  - intros H. unfold Core.createResearcher.
    apply N.ltb_lt in H. by rewrite H, orb_true_r.
  - intros H1 H2. unfold Core.createResearcher. rewrite (Hn H1).
    apply N.ltb_lt in H2. by rewrite H2, orb_true_r.
  - intros H1 H2 H3. unfold Core.createResearcher.
    rewrite (Hn H1), (Ha H2), H3. by rewrite orb_true_r.
  - intros H1 H2 H3 H4. unfold Core.createResearcher.
    rewrite (Hn H1), (Ha H2), (He H3), H4. by rewrite orb_true_r.
  - intros H1 H2 H3 H4 (k & q & Hk & Hd).
    by apply (createResearcher_duplicate env name address email phone st k q).
Qed.

(** X17.  After a successful [createResearcher] the new record, owned by
    the caller, is listed by [getAllResearchers] and, in the second copy, is
    found under the drawn identifier by [getResearcherById]; in the first
    copy that query, for an identifier that passes the identifier check,
    reads [researcherOpt.Some], which is [undefined], and the call traps.
    [getResearcherByOwner] still finds nothing for the caller who has just
    registered; and sending the same payload again is refused as a
    duplicate, whoever sends it. *)
Theorem created_researcher_is_found v env env' name address email phone st r
    st' :
  Core.createResearcher env name address email phone st = (Ok r, st') ->
  Researcher.id r = uuid env
  /\ Researcher.owner r = caller env
  /\ (passes v (uuid env) ->
      Core.getResearcherById v (uuid env) st'
      = (match v with
         | Core.Plain => Ok r
         | Core.Guarded => Trap
         end, st'))
  /\ (exists l, Core.getAllResearchers st' = (Ok l, st') /\ r ∈ l)
  /\ (exists m, Core.getResearcherByOwner env st' = (Err (NotFound m), st'))
  /\ Core.createResearcher env' name address email phone st'
     = (Err (InvalidPayload
               "Researcher with this email or phone already exists."), st').
Proof.
  intros E. pose proof E as (Hn & Ha & He & Hp & _ & Hr & Hst)%createResearcher_Ok.
  assert (Hl : Core.researchers st' !! uuid env = Some r)
    by (subst st'; simpl; by rewrite lookup_insert_eq).
  split; [by subst r|]. split; [by subst r|]. split; [|split; [|split]].
  - intros Hu. unfold Core.getResearcherById.
    rewrite try_id_passes by done. rewrite Hl. by destruct v.
  - exists (Core.values (Core.researchers st')).
    assert (Hin : r ∈ Core.values (Core.researchers st'))
      by (apply values_elem; eauto).
    split; [|exact Hin]. unfold Core.getAllResearchers.
    destruct (Core.values (Core.researchers st')); [|reflexivity].
    by apply not_elem_of_nil in Hin.
  - eexists. unfold Core.getResearcherByOwner, Core.owner_is_caller.
    by rewrite filter_nothing.
  - apply (createResearcher_duplicate env' name address email phone st'
             (uuid env) r); auto.
    right. by subst r.
Qed.

Lemma created_researcher_is_found_witness :
  Core.getResearcherById Core.Guarded Demo.id1 (Demo.registered Core.Guarded)
  = (Trap, Demo.registered Core.Guarded)
  /\ Core.createResearcher (Demo.bob Demo.id2) "Jane Smith"
       "123 Research Ave" "jane.smith@research.org" "1234567890"
       (Demo.registered Core.Guarded)
     = (Err (InvalidPayload
               "Researcher with this email or phone already exists."),
        Demo.registered Core.Guarded).
Proof.
  destruct (created_researcher_is_found Core.Guarded (Demo.alice Demo.id1)
              (Demo.bob Demo.id2) "Jane Smith" "123 Research Ave"
              "jane.smith@research.org" "1234567890" Core.empty
              (Researcher.mk Demo.id1 "Jane Smith" "123 Research Ave"
                 "jane.smith@research.org" "1234567890" "alice" 0 0 [] [] [])
              (Demo.registered Core.Guarded))
    as (_ & _ & Hget & _ & _ & H).
  - vm_compute. reflexivity.
  - split; [|exact H]. apply Hget. reflexivity.
Defined.

(** *** The points variant *)

Lemma points_exec_unchanged env c st :
  points_answered_Ok env c st = false -> Points.exec env c st = st.
Proof.
  destruct c; simpl; try discriminate; try reflexivity.
  - unfold Points.createProposal. by destruct (_ || _).
  - unfold Points.submitReview.
    destruct (Points.Proposals st !! proposal_id); [|reflexivity].
    by destruct (_ || _).
  - unfold Points.getResearcherProfile.
    by destruct (Points.Researchers st !! principal).
Qed.

Lemma points_query_unchanged env c st :
  (c = Points.GetResearcherLeaderboard
   \/ exists p, c = Points.GetResearcherProfile p) ->
  Points.exec env c st = st.
Proof.
  intros [->|[p ->]]; [reflexivity|]. simpl.
  unfold Points.getResearcherProfile.
  by destruct (Points.Researchers st !! p).
Qed.

(** X18.  In the points variant too a call that is answered with [Err]
    leaves the four maps as they were, and so does the profile query
    whatever it answers. *)
Theorem points_state_changes_only_on_Ok env c st :
  (points_answered_Ok env c st = false -> Points.exec env c st = st)
  /\ (forall p, Points.exec env (Points.GetResearcherProfile p) st = st).
Proof.
  split; [apply points_exec_unchanged|].
  intros p. apply points_query_unchanged. eauto.
Qed.

Lemma lookup_catalog (m : gmap text Points.Badge.t) :
  let m' := (foldl (fun m badge => <[Points.Badge.id badge := badge]> m) m
               Points.DEFAULT_BADGES) in
  (forall b, b ∈ Points.DEFAULT_BADGES -> m' !! Points.Badge.id b = Some b)
  /\ (forall k, (forall b, b ∈ Points.DEFAULT_BADGES ->
                           Points.Badge.id b <> k) ->
                m' !! k = m !! k).
Proof.
  simpl. split.
  - intros b Hb. unfold Points.DEFAULT_BADGES in Hb.
    rewrite !elem_of_cons in Hb.
    destruct Hb as [->|[->|[->|Hb]]]; [| | |by apply elem_of_nil in Hb];
      simpl; repeat (rewrite lookup_insert_ne by discriminate);
      by rewrite lookup_insert_eq.
  - intros k Hk.
    assert (HF : Forall (fun b => Points.Badge.id b <> k)
                   Points.DEFAULT_BADGES)
      by (apply Forall_forall; exact Hk).
    unfold Points.DEFAULT_BADGES in HF.
    repeat (apply Forall_cons in HF as [? HF]). simpl in *.
    by rewrite !lookup_insert_ne.
Qed.

(** X19.  [init] stores the three badges of the catalog under their own
    identifiers, with thresholds 20, 500 and 200, replaces nothing else and
    touches no profile, proposal or review; running it again changes
    nothing. *)
Theorem init_seeds_the_catalog st :
  let st' := (Points.init st).2 in
  (Points.init st).1 = Ok Points.DEFAULT_BADGES
  /\ (forall b, b ∈ Points.DEFAULT_BADGES ->
                Points.Badges st' !! Points.Badge.id b = Some b)
  /\ List.map (fun b => (Points.Badge.id b, Points.Badge.points_threshold b))
       Points.DEFAULT_BADGES
     = [("research_starter", 20); ("funding_champion", 500);
        ("review_master", 200)]
  /\ (forall k, (forall b, b ∈ Points.DEFAULT_BADGES ->
                           Points.Badge.id b <> k) ->
                Points.Badges st' !! k = Points.Badges st !! k)
  /\ Points.Researchers st' = Points.Researchers st
  /\ Points.Proposals st' = Points.Proposals st
  /\ Points.Reviews st' = Points.Reviews st
  /\ (Points.init st').2 = st'.
Proof.
  simpl. destruct (lookup_catalog (Points.Badges st)) as [H1 H2].
  repeat split; try assumption.
  unfold Points.init. simpl. f_equal.
  apply map_eq. intros k.
  repeat (rewrite lookup_insert; case_decide; [subst k|]);
    try reflexivity;
    repeat (rewrite lookup_insert_ne by discriminate);
    by rewrite ?lookup_insert_eq.
Qed.

Lemma ledger_entry_mono st st' p :
  (forall k, is_Some (Points.Researchers st !! k) ->
             is_Some (Points.Researchers st' !! k)) ->
  (forall k, is_Some (Points.Reviews st !! k) ->
             is_Some (Points.Reviews st' !! k)) ->
  (forall k a, Points.Researchers st !! k = Some a ->
               "research_starter" ∈ Points.Researcher.badges a ->
               exists a', Points.Researchers st' !! k = Some a'
                          /\ "research_starter" ∈ Points.Researcher.badges a') ->
  ledger_entry_ok st p -> ledger_entry_ok st' p.
Proof.
  intros HR HV HA (H1 & H2 & H3 & a & Ha & Hb).
  split; [exact H1|]. split; [|split].
  - eapply Forall_impl; [exact H2|]. intros e [He Hs]. auto.
  - eapply Forall_impl; [exact H3|]. auto.
  - eauto.
Qed.

(** The profile of the caller after a contribution keeps its badges. *)
Lemma insert_profile_keeps (m : gmap Principal Points.Researcher.t) c r' :
  (forall a, m !! c = Some a ->
             forall b, b ∈ Points.Researcher.badges a ->
                       b ∈ Points.Researcher.badges r') ->
  forall k a, m !! k = Some a ->
              "research_starter" ∈ Points.Researcher.badges a ->
              exists a', <[c := r']> m !! k = Some a'
                         /\ "research_starter" ∈ Points.Researcher.badges a'.
Proof.
  intros H k a Hk Hb. destruct (decide (c = k)) as [->|Hne].
  - rewrite lookup_insert_eq. eauto.
  - rewrite lookup_insert_ne by done. eauto.
Qed.

Lemma profile_badges st c a :
  Points.Researchers st !! c = Some a ->
  Points.Researcher.badges (Points.profile st c) = Points.Researcher.badges a.
Proof. intros H. unfold Points.profile. by rewrite H. Qed.

Lemma exec_ledger_ok env c st : ledger_ok st -> ledger_ok (Points.exec env c st).
Proof.
  unfold ledger_ok. intros H. destruct c; simpl; try assumption.
  - (* createProposal *)
    unfold Points.createProposal. destruct (_ || _); [assumption|]. simpl.
    set (r' := Points.Researcher.mk _ _ _ _ _ _).
    set (st' := Points.mkState _ _ _ _).
    assert (Hmono : forall p, ledger_entry_ok st p -> ledger_entry_ok st' p).
    { intros p. apply ledger_entry_mono; simpl; auto.
      - intros k. apply is_Some_insert.
      - apply insert_profile_keeps. intros a Ha b Hb. subst r'. simpl.
        apply push_new_elem. left. by rewrite (profile_badges _ _ _ Ha). }
    apply map_Forall_insert_2.
    + repeat split; simpl; try constructor.
      exists r'. subst st' r'. simpl. rewrite lookup_insert_eq.
      split; [reflexivity|]. simpl. apply push_new_elem. by right.
    + eapply map_Forall_impl; [exact H|]. intros k p. apply Hmono.
  - (* submitReview *)
    unfold Points.submitReview.
    destruct (Points.Proposals st !! proposal_id) as [p|] eqn:Hp;
      [|assumption].
    destruct (_ || _) eqn:Hchk; [assumption|]. simpl.
    apply orb_false_iff in Hchk as [[Hlo Hhi]%orb_false_iff _].
    apply N.ltb_ge in Hlo, Hhi.
    set (r' := Points.Researcher.mk _ _ _ _ _ _).
    set (st' := Points.mkState _ _ _ _).
    assert (Hmono : forall q, ledger_entry_ok st q -> ledger_entry_ok st' q).
    { intros q. apply ledger_entry_mono; simpl.
      - intros k. apply is_Some_insert.
      - intros k. apply is_Some_insert.
      - apply insert_profile_keeps. intros a Ha b Hb. subst r'. simpl.
        rewrite <- (profile_badges _ _ _ Ha) in Hb.
        destruct (Points.Badges st !! "review_master"); [|done].
        destruct (_ <=? _); [|done]. apply push_new_elem. by left. }
    apply map_Forall_insert_2.
    + destruct (Hmono p (H _ _ Hp)) as (H1 & H2 & H3 & H4).
      split; [|split; [|split]]; simpl.
      * rewrite !length_app, H1. reflexivity.
      * apply Forall_app. split; [exact H2|]. apply Forall_singleton.
        simpl. split.
        -- unfold Points.POINTS.REVIEW_BASE,
             Points.POINTS.REVIEW_QUALITY_MULTIPLIER. lia.
        -- subst st'. simpl. rewrite lookup_insert_eq. eauto.
      * apply Forall_app. split; [exact H3|]. apply Forall_singleton.
        subst st'. simpl. rewrite lookup_insert_eq. eauto.
      * exact H4.
    + eapply map_Forall_impl; [exact H|]. intros k q. apply Hmono.
  - unfold Points.getResearcherProfile.
    by destruct (Points.Researchers st !! principal).
Qed.

Lemma exec_points_reviews_valid env c st :
  points_reviews_valid st -> points_reviews_valid (Points.exec env c st).
Proof.
  unfold points_reviews_valid. intros H. destruct c; simpl; try assumption.
  - unfold Points.createProposal. by destruct (_ || _).
  - unfold Points.submitReview.
    destruct (Points.Proposals st !! proposal_id); [|assumption].
    destruct (_ || _) eqn:Hchk; [assumption|]. simpl.
    apply orb_false_iff in Hchk as [[Hlo Hhi]%orb_false_iff Hs].
    apply N.ltb_ge in Hlo, Hhi, Hs.
    apply map_Forall_insert_2; [|assumption]. simpl.
    unfold Points.POINTS.REVIEW_BASE, Points.POINTS.REVIEW_QUALITY_MULTIPLIER.
    repeat split; lia.
  - unfold Points.getResearcherProfile.
    by destruct (Points.Researchers st !! principal).
Qed.

Lemma push_new_NoDup b l : NoDup l -> NoDup (Points.push_new b l).
Proof.
  intros H. unfold Points.push_new. case_bool_decide as Hb; [assumption|].
  apply NoDup_app. split; [assumption|]. split.
  - intros x Hx ->%list_elem_of_singleton. contradiction.
  - apply NoDup_singleton.
Qed.

Lemma push_new_length b l :
  (List.length l <= List.length (Points.push_new b l))%nat.
Proof.
  unfold Points.push_new. case_bool_decide; [lia|]. rewrite length_app. lia.
Qed.

Lemma profile_fact (P : Points.Researcher.t -> Prop) st c :
  map_Forall (fun _ r => P r) (Points.Researchers st) ->
  P (Points.Researcher.mk c 0 0 [] [] []) ->
  P (Points.profile st c).
Proof.
  intros H H0. unfold Points.profile.
  destruct (Points.Researchers st !! c) eqn:E; [exact (H _ _ E)|exact H0].
Qed.

Lemma exec_profiles (P : Points.Researcher.t -> Prop) env c st :
  (forall k, P (Points.Researcher.mk k 0 0 [] [] [])) ->
  (forall r id,
      P r ->
      P (Points.Researcher.mk (Points.Researcher.principal r)
           (Points.Researcher.reputation_score r)
           (Points.Researcher.total_points r + 20)
           (Points.push_new "research_starter" (Points.Researcher.badges r))
           (Points.Researcher.contributions r ++ [id])
           (Points.Researcher.achievements r))) ->
  (forall r id score badges,
      P r -> 1 <= score <= 10 ->
      badges = Points.Researcher.badges r
      \/ badges = Points.push_new "review_master" (Points.Researcher.badges r) ->
      P (Points.Researcher.mk (Points.Researcher.principal r)
           (Points.Researcher.reputation_score r)
           (Points.Researcher.total_points r + 10 * score * 2)
           badges
           (Points.Researcher.contributions r ++ [id])
           (Points.Researcher.achievements r))) ->
  map_Forall (fun _ r => P r) (Points.Researchers st) ->
  map_Forall (fun _ r => P r) (Points.Researchers (Points.exec env c st)).
Proof.
  intros H0 Hc Hs H. destruct c; simpl; try assumption.
  - unfold Points.createProposal. destruct (_ || _); [assumption|]. simpl.
    apply map_Forall_insert_2; [|assumption].
    apply Hc. by apply profile_fact.
  - unfold Points.submitReview.
    destruct (Points.Proposals st !! proposal_id); [|assumption].
    destruct (_ || _) eqn:Hchk; [assumption|]. simpl.
    apply orb_false_iff in Hchk as [[Hlo Hhi]%orb_false_iff _].
    apply N.ltb_ge in Hlo, Hhi.
    apply map_Forall_insert_2; [|assumption].
    apply Hs; [by apply profile_fact|lia|].
    destruct (Points.Badges st !! "review_master"); [|by left].
    destruct (_ <=? _); [by right|by left].
  - unfold Points.getResearcherProfile.
    by destruct (Points.Researchers st !! principal).
Qed.

Lemma reachable_profiles (P : Points.Researcher.t -> Prop) st :
  (forall k, P (Points.Researcher.mk k 0 0 [] [] [])) ->
  (forall r id,
      P r ->
      P (Points.Researcher.mk (Points.Researcher.principal r)
           (Points.Researcher.reputation_score r)
           (Points.Researcher.total_points r + 20)
           (Points.push_new "research_starter" (Points.Researcher.badges r))
           (Points.Researcher.contributions r ++ [id])
           (Points.Researcher.achievements r))) ->
  (forall r id score badges,
      P r -> 1 <= score <= 10 ->
      badges = Points.Researcher.badges r
      \/ badges = Points.push_new "review_master" (Points.Researcher.badges r) ->
      P (Points.Researcher.mk (Points.Researcher.principal r)
           (Points.Researcher.reputation_score r)
           (Points.Researcher.total_points r + 10 * score * 2)
           badges
           (Points.Researcher.contributions r ++ [id])
           (Points.Researcher.achievements r))) ->
  Points.reachable st ->
  map_Forall (fun _ r => P r) (Points.Researchers st).
Proof.
  intros H0 Hc Hs. induction 1 as [|env c st _ _ IH];
    [apply map_Forall_empty|by apply exec_profiles].
Qed.

(** X20.  In every reachable state of the points variant a profile holds no
    badge twice and never holds [funding_champion], which no handler grants:
    it holds at most the two badges [research_starter] and
    [review_master]. *)
Theorem badges_without_duplicates st k r :
  Points.reachable st ->
  Points.Researchers st !! k = Some r ->
  NoDup (Points.Researcher.badges r)
  /\ ("funding_champion" ∉ Points.Researcher.badges r)
  /\ (forall b, b ∈ Points.Researcher.badges r ->
                b = "research_starter" \/ b = "review_master")
  /\ (List.length (Points.Researcher.badges r) <= 2)%nat.
Proof.
  intros Hr Hk.
  assert (Hnd : NoDup (Points.Researcher.badges r)).
  { revert k r Hk.
    apply (reachable_profiles
             (fun r => NoDup (Points.Researcher.badges r))); auto; simpl.
    - intros _. apply NoDup_nil_2.
    - intros r id. apply push_new_NoDup.
    - intros r id score badges H _ [->| ->]; [assumption|].
      by apply push_new_NoDup. }
  destruct (reachable_badges_earned st Hr) as [_ He].
  destruct (He _ _ Hk) as (H1 & _ & _).
  split; [exact Hnd|]. split; [|split; [exact H1|]].
  - intros Hin. destruct (H1 _ Hin); discriminate.
  - change 2%nat with (List.length ["research_starter"; "review_master"]).
    apply submseteq_length, NoDup_submseteq; [exact Hnd|].
    intros b Hb. rewrite !elem_of_cons. destruct (H1 b Hb); auto.
Qed.

Lemma badges_without_duplicates_witness :
  "funding_champion" ∉ ["research_starter"].
Proof.
  destruct (badges_without_duplicates Demo.scored "alice"
              (Points.Researcher.mk "alice" 0 20 ["research_starter"]
                 [Demo.id2] [])) as (_ & H & _).
  - repeat (apply Points.reachable_exec; [reflexivity|]). constructor.
  - vm_compute. reflexivity.
  - exact H.
Defined.

(** X21.  The points of a profile follow its contributions: every
    contribution has brought between 20 and 200 points, so [total_points] is
    a multiple of 20 that lies between 20 and 200 times the number of
    entries of [contributions]; a profile that exists has contributed at
    least once. *)
Theorem points_follow_contributions st k r :
  Points.reachable st ->
  Points.Researchers st !! k = Some r ->
  20 * N.of_nat (List.length (Points.Researcher.contributions r))
  <= Points.Researcher.total_points r
  /\ Points.Researcher.total_points r
     <= 200 * N.of_nat (List.length (Points.Researcher.contributions r))
  /\ (Points.Researcher.total_points r) mod 20 = 0
  /\ Points.Researcher.reputation_score r = 0
  /\ Points.Researcher.achievements r = [].
Proof.
  intros Hr. revert k r.
  apply (reachable_profiles
           (fun r =>
              20 * N.of_nat (List.length (Points.Researcher.contributions r))
              <= Points.Researcher.total_points r
              /\ Points.Researcher.total_points r
                 <= 200 * N.of_nat
                            (List.length (Points.Researcher.contributions r))
              /\ (Points.Researcher.total_points r) mod 20 = 0
              /\ Points.Researcher.reputation_score r = 0
              /\ Points.Researcher.achievements r = []));
    [| | |exact Hr]; simpl.
  - intros ?. repeat split; try reflexivity; lia.
  - intros r id (H1 & H2 & H3 & H4 & H5). rewrite length_app. simpl.
    repeat split; try assumption; try lia.
    rewrite <- N.Div0.add_mod_idemp_l, H3. reflexivity.
  - intros r id score badges (H1 & H2 & H3 & H4 & H5) Hs _.
    rewrite length_app. simpl.
    repeat split; try assumption; try lia.
    rewrite <- N.Div0.add_mod_idemp_l, H3. simpl.
    replace (10 * score * 2) with (score * 20) by lia.
    apply N.Div0.mod_mul.
Qed.

Lemma points_follow_contributions_witness :
  20 * N.of_nat (List.length [Demo.id3]) <= 20.
Proof.
  destruct (points_follow_contributions Demo.scored "bob"
              (Points.Researcher.mk "bob" 0 20 [] [Demo.id3] []))
    as (H & _).
  - repeat (apply Points.reachable_exec; [reflexivity|]). constructor.
  - vm_compute. reflexivity.
  - exact H.
Defined.

Lemma reachable_ledger_ok st : Points.reachable st -> ledger_ok st.
Proof.
  induction 1 as [|env c st _ _ IH]; [|by apply exec_ledger_ok].
  apply map_Forall_empty.
Qed.

Lemma reachable_points_reviews_valid st :
  Points.reachable st -> points_reviews_valid st.
Proof.
  induction 1 as [|env c st _ _ IH]; [|by apply exec_points_reviews_valid].
  apply map_Forall_empty.
Qed.

(** X22.  The ledger of a proposal of the points variant matches its
    reviews: [contributors_points] has one entry per review identifier, each
    entry is worth 20 to 200 points and names a principal that has a
    profile, every review identifier is a key of the review map, and the
    author of the proposal has a profile that holds [research_starter]. *)
Theorem ledger_matches_reviews st k p :
  Points.reachable st ->
  Points.Proposals st !! k = Some p ->
  List.length (Points.ResearchProposal.contributors_points p)
  = List.length (Points.ResearchProposal.reviews p)
  /\ (forall e, e ∈ Points.ResearchProposal.contributors_points p ->
                20 <= e.2 <= 200
                /\ is_Some (Points.Researchers st !! e.1))
  /\ (forall r, r ∈ Points.ResearchProposal.reviews p ->
                is_Some (Points.Reviews st !! r))
  /\ exists a,
       Points.Researchers st !! Points.ResearchProposal.researcher p = Some a
       /\ "research_starter" ∈ Points.Researcher.badges a.
Proof.
  intros Hr Hk.
  destruct (reachable_ledger_ok st Hr k p Hk) as (H1 & H2 & H3 & H4).
  rewrite Forall_forall in H2. rewrite Forall_forall in H3. auto.
Qed.

Lemma ledger_matches_reviews_witness :
  exists a,
    Points.Researchers Demo.scored !! "alice" = Some a
    /\ "research_starter" ∈ Points.Researcher.badges a.
Proof.
  destruct (ledger_matches_reviews Demo.scored Demo.id2
              (Points.ResearchProposal.mk Demo.id2 "alice" "Quantum codes"
                 "Error correction" "Topological codes" [] 1000 0 "draft"
                 [Demo.id3] "2024-05-01" [("bob", 20)]))
    as (_ & _ & _ & H).
  - repeat (apply Points.reachable_exec; [reflexivity|]). constructor.
  - vm_compute. reflexivity.
  - exact H.
Defined.

(** X23.  Every review stored by the points variant carries a score from 1
    to 10, a stake of at least 100 and exactly 20 points per unit of score,
    so between 20 and 200 points. *)
Theorem stored_points_match_scores st k r :
  Points.reachable st ->
  Points.Reviews st !! k = Some r ->
  1 <= Points.Review.score r <= 10
  /\ 100 <= Points.Review.stake_amount r
  /\ Points.Review.points_earned r = 20 * Points.Review.score r
  /\ 20 <= Points.Review.points_earned r <= 200.
Proof.
  intros Hr Hk.
  destruct (reachable_points_reviews_valid st Hr k r Hk)
    as (H1 & H2 & _ & H4).
  repeat split; try assumption; lia.
Qed.

Lemma stored_points_match_scores_witness : 20 <= 20 <= 200.
Proof.
  destruct (stored_points_match_scores Demo.scored Demo.id3
              (Points.Review.mk Demo.id3 "bob" 1 "Thin" 100 false 20))
    as (_ & _ & _ & H).
  - repeat (apply Points.reachable_exec; [reflexivity|]). constructor.
  - vm_compute. reflexivity.
  - exact H.
Defined.




(** *** Reading one record *)

(** X26.  [getResearcherById] and [getProposalById], in a reachable state
    and for an identifier that passes the identifier check.  An identifier
    under which nothing is stored is answered with [NotFound].  For a stored
    record, whose [id] field is the identifier asked for, the second copy
    returns the record as it is stored; the first copy reads [opt.Some] of
    the record itself, which is [undefined], and the call traps.  The state
    is not changed in any case. *)
Theorem getById_reads_the_store v st id :
  Core.reachable v st ->
  passes v id ->
  match Core.researchers st !! id with
  | Some r =>
      Core.getResearcherById v id st
      = (match v with
         | Core.Plain => Ok r
         | Core.Guarded => Trap
         end, st)
      /\ Researcher.id r = id
  | None =>
      Core.getResearcherById v id st
      = (Err (NotFound ("Researcher with id=" +:+ id +:+ " not found.")), st)
  end
  /\ match Core.proposals st !! id with
     | Some p =>
         Core.getProposalById v id st
         = (match v with
            | Core.Plain => Ok p
            | Core.Guarded => Trap
            end, st)
         /\ ResearchProposal.id p = id
     | None =>
         Core.getProposalById v id st
         = (Err (NotFound ("Proposal with id=" +:+ id +:+ " not found.")), st)
     end.
Proof.
  intros (H1 & H2 & _)%reachable_ids_match Hv.
  unfold Core.getResearcherById, Core.getProposalById.
  rewrite !try_id_passes by done. split.
  - destruct (Core.researchers st !! id) as [r|] eqn:E; [|by destruct v].
    split; [by destruct v|exact (H1 _ _ E)].
  - destruct (Core.proposals st !! id) as [p|] eqn:E; [|by destruct v].
    split; [by destruct v|exact (H2 _ _ E)].
Qed.

Lemma getById_reads_the_store_witness :
  Core.getProposalById Core.Guarded Demo.id2 (Demo.proposed Core.Guarded)
  = (Trap, Demo.proposed Core.Guarded)
  /\ Core.getProposalById Core.Plain Demo.id2 (Demo.proposed Core.Plain)
     = (Ok (ResearchProposal.mk Demo.id2 Demo.id1 "Quantum codes"
              "Error correction" "Topological codes" [] 1000 0 "draft" []
              "2024-05-01"),
        Demo.proposed Core.Plain).
Proof.
  split.
  - destruct (getById_reads_the_store Core.Guarded
                (Demo.proposed Core.Guarded) Demo.id2) as [_ H].
    + repeat (apply Core.reachable_exec; [reflexivity|]). constructor.
    + reflexivity.
    + assert (E : Core.proposals (Demo.proposed Core.Guarded) !! Demo.id2
                  = Some (ResearchProposal.mk Demo.id2 Demo.id1
                            "Quantum codes" "Error correction"
                            "Topological codes" [] 1000 0 "draft" []
                            "2024-05-01"))
        by (vm_compute; reflexivity).
      rewrite E in H. destruct H as [H _]. exact H.
  - destruct (getById_reads_the_store Core.Plain (Demo.proposed Core.Plain)
                Demo.id2) as [_ H].
    + repeat (apply Core.reachable_exec; [reflexivity|]). constructor.
    + exact I.
    + assert (E : Core.proposals (Demo.proposed Core.Plain) !! Demo.id2
                  = Some (ResearchProposal.mk Demo.id2 Demo.id1
                            "Quantum codes" "Error correction"
                            "Topological codes" [] 1000 0 "draft" []
                            "2024-05-01"))
        by (vm_compute; reflexivity).
      rewrite E in H. destruct H as [H _]. exact H.
Defined.
